(** * whereami-web: velocity composition and space-time displacement

    A shallow embedding of [cosmic_calculator.py], [spacetime_position.py],
    the coordinate check of [geocoding.py] and the spacecraft comparison of
    [app.py].

    Numbers.  The Python code computes on binary64 floats and NumPy arrays
    of three floats.  They are idealised here as real numbers ([R]), the
    reading the data model itself gives ("an ordered triple of real
    numbers"): every statement below is an identity of real arithmetic and
    says nothing about rounding.  Decimal literals of the source
    ([0.465], [9.461e12]) are the decimal numbers they denote.

    Time.  A timezone-aware [datetime] is its UTC instant in microseconds
    together with its [tzinfo] object and the UTC offset that object gives
    it; its wall-clock reading is the instant plus the offset.  Subtracting
    two of them follows [datetime.__sub__]: the difference of the wall-clock
    readings when both carry one and the same [tzinfo] object, the
    difference of the instants otherwise; [total_seconds] divides the
    microseconds of the result by [10**6]. *)

From Stdlib Require Import Reals Lra Lia List String ZArith Bool.
Import ListNotations.
Open Scope string_scope.
Open Scope R_scope.

(** ** NumPy arrays of shape (3,) and scalars *)

Module Np.

Record array3 : Type := mk3 { x_ : R; y_ : R; z_ : R }.

(** [np.zeros(3)] *)
Definition zeros3 : array3 := mk3 0 0 0.

(** [a + b] on two arrays *)
Definition add (a b : array3) : array3 :=
  mk3 (x_ a + x_ b) (y_ a + y_ b) (z_ a + z_ b).

(** [s * a] and [a * s] with [s] a scalar *)
Definition scale (s : R) (a : array3) : array3 :=
  mk3 (s * x_ a) (s * y_ a) (s * z_ a).

Definition rscale (a : array3) (s : R) : array3 :=
  mk3 (x_ a * s) (y_ a * s) (z_ a * s).


(** [np.linalg.norm(a)] *)
Definition norm (a : array3) : R :=
  sqrt (x_ a * x_ a + y_ a * y_ a + z_ a * z_ a).

(** [np.radians(d)] *)
Definition radians (d : R) : R := d * PI / 180.

(** What a dictionary of velocities holds: arrays, and one scalar under
    ['total_magnitude']. *)
Inductive value : Type :=
| Arr (a : array3)
| Num (s : R).

(** [total += v]: a scalar operand is broadcast over the three cells. *)
Definition iadd (total : array3) (v : value) : array3 :=
  match v with
  | Arr a => add total a
  | Num s => add total (mk3 s s s)
  end.

(** [v * s] *)
Definition mul (v : value) (s : R) : value :=
  match v with
  | Arr a => Arr (rscale a s)
  | Num t => Num (t * s)
  end.

(** [np.linalg.norm(v)]; on a scalar it is the absolute value. *)
Definition norm_value (v : value) : R :=
  match v with
  | Arr a => norm a
  | Num s => sqrt (s * s)
  end.

End Np.

(** ** Python dictionaries with string keys

    Insertion-ordered: iteration follows the order in which keys were first
    bound, and rebinding a key keeps its place. *)

Module Dict.

Definition t (V : Type) : Type := list (string * V).

Fixpoint get {V} (d : t V) (k : string) : option V :=
  match d with
  | [] => None
  | (k', v) :: d' => if String.eqb k k' then Some v else get d' k
  end.

(** [d[k] = v] *)
Fixpoint set {V} (d : t V) (k : string) (v : V) : t V :=
  match d with
  | [] => [(k, v)]
  | (k', v') :: d' =>
      if String.eqb k k' then (k', v) :: d' else (k', v') :: set d' k v
  end.

Definition keys {V} (d : t V) : list string := map fst d.
Definition values {V} (d : t V) : list V := map snd d.

End Dict.

(** ** Exceptions *)

Inductive exn : Type :=
| KeyError (key : string).

Inductive exc (A : Type) : Type :=
| Return (a : A)
| Raise (e : exn).
Arguments Return {A} a.
Arguments Raise {A} e.

Definition bind {A B} (m : exc A) (f : A -> exc B) : exc B :=
  match m with
  | Return a => f a
  | Raise e => Raise e
  end.

Notation "x <- m ;; k" := (bind m (fun x => k))
  (at level 61, m at next level, right associativity).

(** [d[k]] as an expression: [KeyError] when the key is unbound. *)
Definition subscript {V} (d : Dict.t V) (k : string) : exc V :=
  match Dict.get d k with
  | Some v => Return v
  | None => Raise (KeyError k)
  end.

(** ** Instants *)

(** The [tzinfo] object a datetime carries, with the UTC offset, in
    microseconds, that [utcoffset()] answers for that datetime.  An object
    of fixed offset ([pytz.UTC], the instances [pytz]'s [localize]
    attaches, a [datetime.timezone]) answers the same offset for every
    datetime.  A zone whose offset varies ([zoneinfo], [dateutil]) is one
    object, told from the others by its [key], that answers for each
    datetime the offset in force at its wall-clock reading. *)
Inductive tzinfo : Type :=
| FixedOffset (tzname : string) (offset : Z)
| Zone (key : string) (offset_here : Z).

(** [dt.utcoffset()], in microseconds *)
Definition utcoffset (zone : tzinfo) : Z :=
  match zone with
  | FixedOffset _ offset => offset
  | Zone _ offset_here => offset_here
  end.

(** [a.tzinfo is b.tzinfo].  Two objects of fixed offset with the same
    name and the same offset are not told apart: subtraction gives the same
    result for them whether they are one object or two. *)
Definition same_object (a b : tzinfo) : bool :=
  match a, b with
  | FixedOffset n o, FixedOffset n' o' => String.eqb n n' && Z.eqb o o'
  | Zone k _, Zone k' _ => String.eqb k k'
  | _, _ => false
  end.

(** [pytz.UTC] *)
Definition UTC : tzinfo := FixedOffset "UTC" 0.

Record datetime : Type := mk_datetime {
  utc_micros : Z;
  tz : tzinfo
}.

(** The naive fields of a datetime (year to microsecond), counted in
    microseconds: what the clock on the wall reads. *)
Definition wall_micros (d : datetime) : Z :=
  (utc_micros d + utcoffset (tz d))%Z.

(** [datetime.now(tz)], the clock reading [clock] microseconds. *)
Definition datetime_now (clock : Z) (zone : tzinfo) : datetime :=
  mk_datetime clock zone.

(** [(a - b).total_seconds()].  When [a] and [b] carry the same [tzinfo]
    object, [a - b] is the difference of the naive fields and the offsets
    are not looked at; otherwise each is first brought to UTC. *)
Definition total_seconds_between (a b : datetime) : R :=
  if same_object (tz a) (tz b)
  then IZR (wall_micros a - wall_micros b) / 1000000
  else IZR (utc_micros a - utc_micros b) / 1000000.

(** [astropy.time.Time(dt)] *)
Record Time : Type := mk_Time { of_datetime : datetime }.

(** ** cosmic_calculator.py *)

Module CosmicMotionCalculator.
Import Np.

Definition EARTH_ROTATION_EQUATOR : R := 0.465.
Definition EARTH_ORBITAL_VELOCITY : R := 29.78.
Definition SOLAR_SYSTEM_LSR : R := 20.0.
Definition SUN_GALACTIC_ORBIT : R := 230.0.
Definition GALACTIC_PLANE_OSCILLATION : R := 7.0.
Definition MW_LOCAL_GROUP : R := 100.0.
Definition LOCAL_GROUP_VIRGO : R := 600.0.
Definition GREAT_ATTRACTOR : R := 600.0.
Definition CMB_DIPOLE_VELOCITY : R := 369.0.
Definition CMB_DIPOLE_RA : R := 167.99.
Definition CMB_DIPOLE_DEC : R := -6.98.

Definition earth_rotation_velocity (latitude longitude : R) (time : Time)
  : array3 :=
  let v_mag := EARTH_ROTATION_EQUATOR * cos (radians latitude) in
  let v_east := v_mag in
  mk3 (- v_east * sin (radians longitude))
      (v_east * cos (radians longitude))
      0.0.

Definition earth_orbital_velocity (time : Time) : array3 :=
  mk3 0 EARTH_ORBITAL_VELOCITY 0.

Definition solar_system_velocity : array3 :=
  let apex_ra := 270.0 in
  let apex_dec := 30.0 in
  scale SOLAR_SYSTEM_LSR
    (mk3 (cos (radians apex_dec) * cos (radians apex_ra))
         (cos (radians apex_dec) * sin (radians apex_ra))
         (sin (radians apex_dec))).

Definition galactic_rotation_velocity : array3 :=
  mk3 0 SUN_GALACTIC_ORBIT 0.

Definition galactic_plane_oscillation_velocity (time : Time) : array3 :=
  mk3 0 0 GALACTIC_PLANE_OSCILLATION.

Definition local_group_velocity : array3 :=
  let m31_ra := 10.5 in
  let m31_dec := 41.27 in
  scale MW_LOCAL_GROUP
    (mk3 (cos (radians m31_dec) * cos (radians m31_ra))
         (cos (radians m31_dec) * sin (radians m31_ra))
         (sin (radians m31_dec))).

Definition virgo_cluster_velocity : array3 :=
  let virgo_ra := 186.75 in
  let virgo_dec := 12.72 in
  scale LOCAL_GROUP_VIRGO
    (mk3 (cos (radians virgo_dec) * cos (radians virgo_ra))
         (cos (radians virgo_dec) * sin (radians virgo_ra))
         (sin (radians virgo_dec))).

Definition great_attractor_velocity : array3 :=
  let ga_ra := 220.0 in
  let ga_dec := -45.0 in
  scale GREAT_ATTRACTOR
    (mk3 (cos (radians ga_dec) * cos (radians ga_ra))
         (cos (radians ga_dec) * sin (radians ga_ra))
         (sin (radians ga_dec))).

Definition cmb_rest_frame_velocity : array3 :=
  let ra_rad := radians CMB_DIPOLE_RA in
  let dec_rad := radians CMB_DIPOLE_DEC in
  scale CMB_DIPOLE_VELOCITY
    (mk3 (cos dec_rad * cos ra_rad)
         (cos dec_rad * sin ra_rad)
         (sin dec_rad)).

(** The dictionary literal that opens [calculate_total_velocity]. *)
Definition components (latitude longitude : R) (time : Time)
  : Dict.t value :=
  [ ("earth_rotation", Arr (earth_rotation_velocity latitude longitude time));
    ("earth_orbit", Arr (earth_orbital_velocity time));
    ("solar_system_lsr", Arr solar_system_velocity);
    ("galactic_rotation", Arr galactic_rotation_velocity);
    ("galactic_oscillation", Arr (galactic_plane_oscillation_velocity time));
    ("local_group", Arr local_group_velocity);
    ("virgo_motion", Arr virgo_cluster_velocity);
    ("great_attractor", Arr great_attractor_velocity);
    ("cmb_frame", Arr cmb_rest_frame_velocity) ].

(** [total = np.zeros(3); for v in velocities.values(): total += v] *)
Definition sum_values (d : Dict.t value) : array3 :=
  fold_left iadd (Dict.values d) zeros3.

Definition calculate_total_velocity (latitude longitude : R) (time : Time)
  : Dict.t value :=
  let velocities := components latitude longitude time in
  let total := sum_values velocities in
  let velocities := Dict.set velocities "total" (Arr total) in
  let velocities :=
    Dict.set velocities "total_magnitude" (Num (norm total)) in
  velocities.

Definition calculate_position_change
  (velocities : Dict.t value) (time_delta_seconds : R) : exc value :=
  total_velocity <- subscript velocities "total" ;;
  let position_change := mul total_velocity time_delta_seconds in
  Return position_change.

End CosmicMotionCalculator.

(** ** geocoding.py *)

Module LocationGeocoder.

(** [lo <= x <= hi] as a Python condition *)
Definition between (lo x hi : R) : bool :=
  if Rle_dec lo x then (if Rle_dec x hi then true else false) else false.

Definition validate_coordinates (latitude longitude : option R) : bool :=
  match latitude, longitude with
  | Some lat, Some lon =>
      if negb (between (-90) lat 90) then false
      else if negb (between (-180) lon 180) then false
      else true
  | _, _ => false
  end.

End LocationGeocoder.

(** ** spacetime_position.py *)

Module SpaceTimePosition.
Import Np.

(** A location tuple [(latitude, longitude, address_string)] *)
Definition location : Type := (R * R * string)%type.

(** The attributes [__init__] sets.  [self.calculator] is a
    [CosmicMotionCalculator], which carries no data the methods below
    read. *)
Record self : Type := mk_self {
  birth_datetime : datetime;
  birth_latitude : R;
  birth_longitude : R;
  birth_address : string;
  current_datetime : datetime;
  current_latitude : R;
  current_longitude : R;
  current_address : string;
  age_seconds : R;
  age_years : R
}.

(** [SpaceTimePosition(birth_datetime, birth_location, current_datetime,
    current_location)], run when the clock reads [clock]. *)
Definition init (clock : Z)
  (birth_dt : datetime) (birth_location : location)
  (current_dt : option datetime) (current_location : option location)
  : self :=
  let '(b_lat, b_lon, b_addr) := birth_location in
  let cur_dt :=
    match current_dt with
    | None => datetime_now clock UTC
    | Some d => d
    end in
  let '(c_lat, c_lon, c_addr) :=
    match current_location with
    | None => (b_lat, b_lon, b_addr)
    | Some l => l
    end in
  let age_s := total_seconds_between cur_dt birth_dt in
  let age_y := age_s / (365.25 * 24 * 3600) in
  mk_self birth_dt b_lat b_lon b_addr cur_dt c_lat c_lon c_addr age_s age_y.

Record location_dict : Type := mk_location_dict {
  latitude : R;
  longitude : R;
  address : string
}.

(** The dictionary [calculate_birth_position] and
    [calculate_current_position] return. *)
Record position_data : Type := mk_position_data {
  time : datetime;
  location_of : location_dict;
  velocities : Dict.t value;
  astropy_time : Time
}.

Definition calculate_birth_position (s : self) : position_data :=
  let birth_time := mk_Time (birth_datetime s) in
  let velocities :=
    CosmicMotionCalculator.calculate_total_velocity
      (birth_latitude s) (birth_longitude s) birth_time in
  mk_position_data (birth_datetime s)
    (mk_location_dict (birth_latitude s) (birth_longitude s)
       (birth_address s))
    velocities birth_time.

Definition calculate_current_position (s : self) : position_data :=
  let current_time := mk_Time (current_datetime s) in
  let velocities :=
    CosmicMotionCalculator.calculate_total_velocity
      (current_latitude s) (current_longitude s) current_time in
  mk_position_data (current_datetime s)
    (mk_location_dict (current_latitude s) (current_longitude s)
       (current_address s))
    velocities current_time.

(** The dictionary [calculate_displacement] returns. *)
Record displacement_data : Type := mk_displacement_data {
  displacement_vector_km : value;
  displacement_magnitude_km : R;
  displacement_magnitude_au : R;
  displacement_magnitude_ly : R;
  time_elapsed_seconds : R;
  time_elapsed_years : R;
  birth_data : position_data;
  current_data : position_data
}.

Definition calculate_displacement (s : self) : exc displacement_data :=
  let birth_data := calculate_birth_position s in
  let current_data := calculate_current_position s in
  let birth_velocities := velocities birth_data in
  displacement <-
    CosmicMotionCalculator.calculate_position_change
      birth_velocities (age_seconds s) ;;
  let displacement_magnitude_km := norm_value displacement in
  let displacement_magnitude_au := displacement_magnitude_km / 149597870.7 in
  let displacement_magnitude_ly := displacement_magnitude_km / 9.461e12 in
  Return (mk_displacement_data
            displacement
            displacement_magnitude_km
            displacement_magnitude_au
            displacement_magnitude_ly
            (age_seconds s)
            (age_years s)
            birth_data
            current_data).

(** The operation the interface calls [compute_displacement]: construct
    the object, then ask it for the displacement (as [app.py] does). *)
Definition compute_displacement (clock : Z)
  (birth_dt : datetime) (birth_location : location)
  (current_dt : option datetime) (current_location : option location)
  : exc displacement_data :=
  calculate_displacement
    (init clock birth_dt birth_location current_dt current_location).

End SpaceTimePosition.

(** ** The spacecraft catalogue and travel times *)

Record spacecraft : Type := mk_spacecraft {
  name : string;
  speed_kms : R;
  speed_kmh : Z;
  year : Z;
  record : string
}.

(** app.py *)

Module App.

Definition catalog : list spacecraft :=
  [ mk_spacecraft "Parker Solar Probe" 163.0 586800 2021
      "Fastest human-made object ever";
    mk_spacecraft "Juno" 73.61 265000 2016
      "Fastest Jupiter mission";
    mk_spacecraft "Helios 2" 70.22 252792 1976
      "Held speed record for 45 years";
    mk_spacecraft "Helios 1" 68.75 247500 1975
      "First to exceed 240,000 km/h";
    mk_spacecraft "New Horizons" 58.54 210744 2015
      "Fastest Earth departure velocity" ].

(** One dictionary of the list [generate_spacecraft_comparisons]
    returns. *)
Record comparison : Type := mk_comparison {
  craft : spacecraft;
  travel_time_seconds : R;
  travel_time_days : R;
  travel_time_years : R
}.

Definition generate_spacecraft_comparisons (distance_km : R)
  : list comparison :=
  map (fun c =>
         let travel_time_seconds := distance_km / speed_kms c in
         let travel_time_years :=
           travel_time_seconds / (365.25 * 24 * 3600) in
         let travel_time_days := travel_time_years * 365.25 in
         mk_comparison c travel_time_seconds travel_time_days
           travel_time_years)
      catalog.

End App.

(** The last loop of [SpaceTimePosition.generate_report]: the quantities it
    formats, before formatting. *)

Module Report.

Definition catalog : list spacecraft :=
  [ mk_spacecraft "Parker Solar Probe" 163.0 586800 2021
      "Fastest human-made object ever";
    mk_spacecraft "Helios 2" 70.22 252792 1976
      "Held speed record for 45 years";
    mk_spacecraft "Helios 1" 68.75 247500 1975
      "First to exceed 240,000 km/h";
    mk_spacecraft "Juno" 73.61 265000 2016
      "Fastest Jupiter mission";
    mk_spacecraft "New Horizons" 58.54 210744 2015
      "Fastest Earth departure velocity" ].

(** [list.sort(key=lambda x: x['speed_kms'], reverse=True)]: descending
    and stable. *)
Fixpoint insert_desc (c : spacecraft) (l : list spacecraft)
  : list spacecraft :=
  match l with
  | [] => [c]
  | d :: l' =>
      if Rle_dec (speed_kms d) (speed_kms c) then c :: d :: l'
      else d :: insert_desc c l'
  end.

Definition sort_desc (l : list spacecraft) : list spacecraft :=
  fold_right insert_desc [] l.

Record times : Type := mk_times {
  craft : spacecraft;
  travel_time_seconds : R;
  travel_time_minutes : R;
  travel_time_hours : R;
  travel_time_days : R;
  travel_time_years : R
}.

Definition travel_times (distance_km : R) : list times :=
  map (fun c =>
         let travel_time_seconds := distance_km / speed_kms c in
         let travel_time_minutes := travel_time_seconds / 60 in
         let travel_time_hours := travel_time_minutes / 60 in
         let travel_time_days := travel_time_hours / 24 in
         let travel_time_years := travel_time_days / 365.25 in
         mk_times c travel_time_seconds travel_time_minutes
           travel_time_hours travel_time_days travel_time_years)
      (firstn 5 (sort_desc catalog)).

End Report.

(** ** Vocabulary of the statements *)

Module Vocabulary.
Import Np CosmicMotionCalculator.

(** The element-wise sum of a list of vectors, cell by cell. *)
Definition Rsum (l : list R) : R := fold_right Rplus 0 l.

Definition vector_sum (l : list array3) : array3 :=
  mk3 (Rsum (map x_ l)) (Rsum (map y_ l)) (Rsum (map z_ l)).

(** The nine categories, in the order of the dictionary literal. *)
Definition component_names : list string :=
  [ "earth_rotation"; "earth_orbit"; "solar_system_lsr";
    "galactic_rotation"; "galactic_oscillation"; "local_group";
    "virgo_motion"; "great_attractor"; "cmb_frame" ].

Definition component_vectors (latitude longitude : R) (time : Time)
  : list array3 :=
  [ earth_rotation_velocity latitude longitude time;
    earth_orbital_velocity time;
    solar_system_velocity;
    galactic_rotation_velocity;
    galactic_plane_oscillation_velocity time;
    local_group_velocity;
    virgo_cluster_velocity;
    great_attractor_velocity;
    cmb_rest_frame_velocity ].

(** The eight categories other than Earth's rotation. *)
Definition fixed_names : list string := tl component_names.

(** A speed along the direction of right ascension [ra] and declination
    [dec], both in degrees:
    [speed * (cos dec * cos ra, cos dec * sin ra, sin dec)]. *)
Definition radec (speed ra dec : R) : array3 :=
  let ra_rad := ra * PI / 180 in
  let dec_rad := dec * PI / 180 in
  mk3 (speed * (cos dec_rad * cos ra_rad))
      (speed * (cos dec_rad * sin ra_rad))
      (speed * sin dec_rad).

(** The current instant [__init__] settles on. *)
Definition present (clock : Z) (current_dt : option datetime) : datetime :=
  match current_dt with
  | None => datetime_now clock UTC
  | Some d => d
  end.

(** The current location [__init__] settles on. *)
Definition whereabouts (birth_location : SpaceTimePosition.location)
  (current_location : option SpaceTimePosition.location)
  : SpaceTimePosition.location :=
  match current_location with
  | None => birth_location
  | Some l => l
  end.

Definition lat_of (l : SpaceTimePosition.location) : R := fst (fst l).
Definition lon_of (l : SpaceTimePosition.location) : R := snd (fst l).

Definition as_dict (l : SpaceTimePosition.location)
  : SpaceTimePosition.location_dict :=
  let '(lat, lon, addr) := l in
  SpaceTimePosition.mk_location_dict lat lon addr.

(** Seconds from instant [b] to instant [a]. *)
Definition seconds_from (b a : datetime) : R :=
  IZR (utc_micros a - utc_micros b) / 1000000.


(** The two datetimes carry different [tzinfo] objects, or the same UTC
    offset: subtracting them gives the time between the two instants. *)
Definition subtract_as_instants (a b : datetime) : Prop :=
  same_object (tz a) (tz b) = false \/ utcoffset (tz a) = utcoffset (tz b).

(** A location passes the range check of [geocoding.py]. *)
Definition in_range (l : SpaceTimePosition.location) : bool :=
  let '(lat, lon, _) := l in
  LocationGeocoder.validate_coordinates (Some lat) (Some lon).

(** Name and cruise speed of each craft, in order. *)
Definition roster (l : list spacecraft) : list (string * R) :=
  map (fun c => (name c, speed_kms c)) l.

(** The vector [calculate_displacement] scales: the sum of the nine
    contributions at the birth event. *)
Definition birth_total (s : SpaceTimePosition.self) : array3 :=
  vector_sum
    (component_vectors
       (SpaceTimePosition.birth_latitude s)
       (SpaceTimePosition.birth_longitude s)
       (mk_Time (SpaceTimePosition.birth_datetime s))).

End Vocabulary.

From Stdlib Require Import Ascii NArith Sorted.

(** ** Further vocabulary *)

Module Measures.
Import Np CosmicMotionCalculator.


End Measures.

(** ** Python strings

    A string is a sequence of code points below 256; the methods below
    are [str]'s on such strings. *)

Module Str.

Definition code (c : ascii) : N := N_of_ascii c.

(** [c.isspace()]: tab to carriage return, the four separators 0x1c to
    0x1f, the space, NEL and the no-break space. *)
Definition isspace (c : ascii) : bool :=
  let n := code c in
  ((9 <=? n) && (n <=? 13) || (28 <=? n) && (n <=? 32)
   || (n =? 133) || (n =? 160))%N.

(** [c.isdigit()]: '0' to '9' and the superscripts two, three and one. *)
Definition isdigit_char (c : ascii) : bool :=
  let n := code c in
  ((48 <=? n) && (n <=? 57) || (n =? 178) || (n =? 179) || (n =? 185))%N.

(** [c.lower()]: 'A' to 'Z' and the capital letters 0xc0 to 0xde, the
    multiplication sign 0xd7 apart, move up by 32. *)
Definition lower_char (c : ascii) : ascii :=
  let n := code c in
  if ((65 <=? n) && (n <=? 90)
      || (192 <=? n) && (n <=? 222) && negb (n =? 215))%N
  then ascii_of_N (n + 32) else c.

Fixpoint lower (s : string) : string :=
  match s with
  | EmptyString => EmptyString
  | String c s' => String (lower_char c) (lower s')
  end.

Fixpoint lstrip (s : string) : string :=
  match s with
  | EmptyString => EmptyString
  | String c s' => if isspace c then lstrip s' else s
  end.

Fixpoint rstrip (s : string) : string :=
  match s with
  | EmptyString => EmptyString
  | String c s' =>
      match rstrip s' with
      | EmptyString => if isspace c then EmptyString else String c EmptyString
      | r => String c r
      end
  end.

(** [s.strip()] *)
Definition strip (s : string) : string := rstrip (lstrip s).

(** [s.split(sep)] with a separator of one character: never empty. *)
Fixpoint split (sep : ascii) (s : string) : list string :=
  match s with
  | EmptyString => [EmptyString]
  | String c s' =>
      if Ascii.eqb c sep then EmptyString :: split sep s'
      else match split sep s' with
           | [] => [String c EmptyString]
           | p :: ps => String c p :: ps
           end
  end.

Fixpoint all_digits (s : string) : bool :=
  match s with
  | EmptyString => true
  | String c s' => isdigit_char c && all_digits s'
  end.

(** [s.isdigit()]: false on the empty string. *)
Definition isdigit (s : string) : bool :=
  match s with
  | EmptyString => false
  | _ => all_digits s
  end.

(** [bool(s)] *)
Definition truthy (s : string) : bool :=
  match s with
  | EmptyString => false
  | _ => true
  end.

(** [sep.join(parts)] *)
Definition join (sep : string) (parts : list string) : string :=
  String.concat sep parts.

(** [s[:n]] *)
Definition prefix (n : nat) (s : string) : string := String.substring 0 n s.

End Str.

(** ** geocoding.py: the rest *)

Module Geocoding.

(** What one call of [self.geocoder.geocode] does: answer a location,
    answer [None], or raise. *)
Inductive outcome : Type :=
| Located (latitude longitude : R) (address : string)
| NoMatch
| TimedOut       (* GeocoderTimedOut *)
| ServiceError   (* any other GeocoderServiceError *)
| OtherError.    (* any other Exception *)

(** What the methods do to the world besides answering: requests to the
    service and calls of [time.sleep].  Printed messages are left out. *)
Inductive event : Type :=
| Query (location_string : string)
| Sleep (seconds : Z).

(** [(latitude, longitude, full_address)], or [(None, None, None)]. *)
Definition found : Type := option (R * R * string).

Section Service.
Variable service : Type.
Variable geocode : string -> service -> outcome * service.

(** The loop [for attempt in range(retry_count)], from [attempt] on, with
    [remaining] iterations left. *)
Fixpoint attempts (remaining : nat) (attempt retry_count : Z)
  (location_string : string) (s : service)
  : found * service * list event :=
  match remaining with
  | O => (None, s, [])
  | S remaining' =>
      let (o, s1) := geocode location_string s in
      let again (wait_time : Z) :=
        let '(r, s2, evs) :=
          attempts remaining' (attempt + 1) retry_count location_string s1 in
        (r, s2, Query location_string :: Sleep wait_time :: evs) in
      let no_answer := (None, s1, [Query location_string]) in
      match o with
      | Located lat lon addr =>
          (Some (lat, lon, addr), s1, [Query location_string])
      | NoMatch => no_answer
      | TimedOut | ServiceError =>
          if (attempt <? retry_count - 1)%Z
          then again (2 * (attempt + 1))%Z
          else no_answer
      | OtherError =>
          if (attempt <? retry_count - 1)%Z then again 2%Z else no_answer
      end
  end.

Definition geocode_location (location_string : string) (retry_count : Z)
  (s : service) : found * service * list event :=
  attempts (Z.to_nat retry_count) 0 retry_count location_string s.

(** [k in d and d[k]]: the value under [k] when it is bound and not
    empty. *)
Definition filled (d : Dict.t string) (k : string) : option string :=
  match Dict.get d k with
  | Some v => if Str.truthy v then Some v else None
  | None => None
  end.

Definition address_components (d : Dict.t string) : list string :=
  flat_map (fun k => match filled d k with Some v => [v] | None => [] end)
           ["city"; "state"; "zip"; "country"].

Definition geocode_with_fallback (location_dict : Dict.t string)
  (s : service) : found * service * list event :=
  let '(r1, s1, e1) :=
    match filled location_dict "full" with
    | Some full => geocode_location full 5 s
    | None => (None, s, [])
    end in
  match r1 with
  | Some _ => (r1, s1, e1)
  | None =>
      let '(r2, s2, e2) :=
        match address_components location_dict with
        | [] => (None, s1, [])
        | comps => geocode_location (Str.join ", " comps) 5 s1
        end in
      match r2 with
      | Some _ => (r2, s2, e1 ++ e2)
      | None =>
          match filled location_dict "country" with
          | Some country =>
              let '(r3, s3, e3) := geocode_location country 5 s2 in
              (r3, s3, e1 ++ e2 ++ e3)
          | None => (None, s2, e1 ++ e2)
          end
      end
  end%list.

End Service.

(** [parts[i]] guarded by [len(parts) >= i + 1] *)
Definition part (parts : list string) (i : nat) : option string :=
  nth_error parts i.

Definition parse_location_input (user_input : string) : Dict.t string :=
  let parts := map Str.strip (Str.split "," user_input) in
  let d := [] in
  let d := match part parts 0 with
           | Some p => Dict.set d "city" p
           | None => d
           end in
  let d := match part parts 1 with
           | Some p => Dict.set d "state" p
           | None => d
           end in
  let d := match part parts 2 with
           | Some p =>
               if Str.isdigit p
                  || (5 <=? String.length p)%nat
                     && Str.isdigit (Str.prefix 5 p)
               then Dict.set d "zip" p
               else Dict.set d "country" p
           | None => d
           end in
  let d := match part parts 3 with
           | Some p => Dict.set d "country" p
           | None => d
           end in
  Dict.set d "full" user_input.

(** The strings the events ask the service for, and the seconds they
    sleep. *)
Definition queries (evs : list event) : list string :=
  flat_map (fun e => match e with Query q => [q] | Sleep _ => [] end) evs.

Definition sleeps (evs : list event) : list Z :=
  flat_map (fun e => match e with Query _ => [] | Sleep n => [n] end) evs.

Definition slept (evs : list event) : Z := fold_right Z.add 0%Z (sleeps evs).

(** The outcome of the call number [k] (from 0) when the same string is
    asked again and again from state [s]. *)
Fixpoint nth_outcome {service : Type}
  (geocode : string -> service -> outcome * service)
  (location_string : string) (k : nat) (s : service) : outcome :=
  match k with
  | O => fst (geocode location_string s)
  | S k' => nth_outcome geocode location_string k'
              (snd (geocode location_string s))
  end.

(** One request, then for each wait a sleep followed by a further
    request: requests and sleeps alternate, starting and ending with a
    request. *)
Definition requests_with_waits (str : string) (waits : list Z) : list event :=
  Query str :: flat_map (fun w => [Sleep w; Query str]) waits.

(** What a run of the retry loop may cost from attempt [a] on, with
    [n] attempts allowed: one sleep between two requests, at most [n - a]
    requests, all for the same string, and bounded sleeps. *)
Definition within_budget (str : string) (a n : Z) (evs : list event) : Prop :=
  (List.length (sleeps evs) + 1 = List.length (queries evs))%nat /\
  (Z.of_nat (List.length (queries evs)) <= n - a)%Z /\
  Forall (eq str) (queries evs) /\
  Forall (fun w => 2 <= w <= 2 * (n - 1))%Z (sleeps evs) /\
  (0 <= slept evs <= n * (n - 1) - a * (a + 1))%Z.

(** The outcomes after which the loop waits [2 * (attempt + 1)]
    seconds. *)
Definition backs_off (o : outcome) : bool :=
  match o with
  | TimedOut | ServiceError => true
  | _ => false
  end.

(** The text under a key, empty when the key is unbound. *)
Definition text (d : Dict.t string) (k : string) : string :=
  match Dict.get d k with
  | Some v => v
  | None => EmptyString
  end.

(** A service that answers from a script, one outcome for each request,
    and "not found" once the script is over. *)
Definition scripted (location_string : string) (script : list outcome)
  : outcome * list outcome :=
  match script with
  | [] => (NoMatch, [])
  | o :: script' => (o, script')
  end.

Definition raises (o : outcome) : bool :=
  match o with
  | Located _ _ _ | NoMatch => false
  | _ => true
  end.

Definition answer (o : outcome) : found :=
  match o with
  | Located lat lon addr => Some (lat, lon, addr)
  | _ => None
  end.

End Geocoding.

(** ** spacetime_position.py: time zones and dates *)

Module Timezones.

Definition tz_mappings : Dict.t string :=
  [ ("eastern", "America/New_York");
    ("est", "America/New_York");
    ("edt", "America/New_York");
    ("et", "America/New_York");
    ("central", "America/Chicago");
    ("cst", "America/Chicago");
    ("cdt", "America/Chicago");
    ("ct", "America/Chicago");
    ("mountain", "America/Denver");
    ("mst", "America/Denver");
    ("mdt", "America/Denver");
    ("mt", "America/Denver");
    ("pacific", "America/Los_Angeles");
    ("pst", "America/Los_Angeles");
    ("pdt", "America/Los_Angeles");
    ("pt", "America/Los_Angeles");
    ("alaska", "America/Anchorage");
    ("akst", "America/Anchorage");
    ("akdt", "America/Anchorage");
    ("hawaii", "Pacific/Honolulu");
    ("hst", "Pacific/Honolulu");
    ("gmt", "GMT");
    ("utc", "UTC");
    ("bst", "Europe/London");
    ("cet", "Europe/Paris");
    ("jst", "Asia/Tokyo");
    ("aest", "Australia/Sydney") ].

Definition normalize_timezone (tz_string : string) : string :=
  let tz_lower := Str.strip (Str.lower tz_string) in
  match Dict.get tz_mappings tz_lower with
  | Some zone => zone
  | None => tz_string
  end.

(** [parse_datetime_input].  The built-in [int], [pytz.timezone], the
    constructor [datetime] and [tz.localize] are taken as they come: each
    either answers or raises, and whatever is raised inside the [try] makes
    the function answer [None].  The message it prints then is left out. *)
Section Calendar.
Variable int : string -> option Z.
Variable zone naive : Type.
Variable pytz_timezone : string -> option zone.
Variable naive_datetime : Z -> Z -> Z -> Z -> Z -> Z -> option naive.
Variable localize : zone -> naive -> option datetime.

(** [int(parts[i])]: [IndexError] and [ValueError] alike end the [try]. *)
Definition int_at (parts : list string) (i : nat) : option Z :=
  match nth_error parts i with
  | Some p => int p
  | None => None
  end.

(** [int(parts[i]) if len(parts) > i else 0] *)
Definition int_at_or_zero (parts : list string) (i : nat) : option Z :=
  if (i <? List.length parts)%nat then int_at parts i else Some 0%Z.

Definition parse_time (time_str : option string) : option (Z * Z * Z) :=
  match time_str with
  | Some t =>
      if Str.truthy t then
        let time_parts := Str.split ":" t in
        match int_at time_parts 0 with
        | Some hour =>
            match int_at_or_zero time_parts 1 with
            | Some minute =>
                match int_at_or_zero time_parts 2 with
                | Some second => Some (hour, minute, second)
                | None => None
                end
            | None => None
            end
        | None => None
        end
      else Some (12, 0, 0)%Z
  | None => Some (12, 0, 0)%Z
  end.

Definition parse_datetime_input (date_str : string)
  (time_str : option string) (timezone_str : string) : option datetime :=
  let date_parts := Str.split "-" date_str in
  match int_at date_parts 0 with
  | Some year =>
      match int_at date_parts 1 with
      | Some month =>
          match int_at date_parts 2 with
          | Some day =>
              match parse_time time_str with
              | Some (hour, minute, second) =>
                  let normalized_tz := normalize_timezone timezone_str in
                  match pytz_timezone normalized_tz with
                  | Some tz =>
                      match naive_datetime year month day
                              hour minute second with
                      | Some dt => localize tz dt
                      | None => None
                      end
                  | None => None
                  end
              | None => None
              end
          | None => None
          end
      | None => None
      end
  | None => None
  end.

End Calendar.

(** No character of the string is [c]. *)
Fixpoint free_of (c : ascii) (s : string) : bool :=
  match s with
  | EmptyString => true
  | String c' s' => negb (Ascii.eqb c' c) && free_of c s'
  end.

(** Sample stand-ins for the library functions: decimal numerals, the one
    zone "UTC", and a calendar that takes every field as it comes and counts
    seconds of the day only. *)
Fixpoint decimal_value (acc : Z) (s : string) : option Z :=
  match s with
  | EmptyString => Some acc
  | String c s' =>
      let n := Str.code c in
      if ((48 <=? n) && (n <=? 57))%N
      then decimal_value (10 * acc + Z.of_N (n - 48))%Z s'
      else None
  end.

Definition sample_int (s : string) : option Z :=
  match s with
  | EmptyString => None
  | _ => decimal_value 0 s
  end.

Definition sample_timezone (name : string) : option tzinfo :=
  if String.eqb name "UTC" then Some UTC else None.

Definition sample_naive (year month day hour minute second : Z) : option Z :=
  Some (1000000 * (3600 * hour + 60 * minute + second))%Z.

Definition sample_localize (z : tzinfo) (micros : Z) : option datetime :=
  Some (mk_datetime micros z).

End Timezones.

(** ** app.py: the answer of [/api/calculate]

    [calculate_position] from [position = SpaceTimePosition(...)] on, the
    dates and places of the request being parsed already. *)

Module Api.
Import Np SpaceTimePosition.

(** What a key of the dictionary [calculate_displacement] returns is
    bound to. *)
Inductive item : Type :=
| Quantity (v : value)
| Number (x : R)
| Position (p : position_data).

(** That dictionary, key by key. *)
Definition items (r : displacement_data) : Dict.t item :=
  [ ("displacement_vector_km", Quantity (displacement_vector_km r));
    ("displacement_magnitude_km", Number (displacement_magnitude_km r));
    ("displacement_magnitude_au", Number (displacement_magnitude_au r));
    ("displacement_magnitude_ly", Number (displacement_magnitude_ly r));
    ("time_elapsed_seconds", Number (time_elapsed_seconds r));
    ("time_elapsed_years", Number (time_elapsed_years r));
    ("birth_data", Position (birth_data r));
    ("current_data", Position (current_data r)) ].

(** What building the response may raise. *)
Inductive failure : Type :=
| Uncaught (e : exn)
| IndexError.

Inductive attempt (A : Type) : Type :=
| Built (a : A)
| Failed (f : failure).
Arguments Built {A} a.
Arguments Failed {A} f.

Definition and_then {A B} (m : attempt A) (f : A -> attempt B) : attempt B :=
  match m with
  | Built a => f a
  | Failed e => Failed e
  end.

(** [v[i]]: a scalar has no cells. *)
Definition cells (v : value) : attempt array3 :=
  match v with
  | Arr a => Built a
  | Num _ => Failed IndexError
  end.

Record velocity_json : Type := mk_velocity_json {
  x : R;
  y : R;
  z : R;
  magnitude : R
}.

(** [{'x': float(vel[0]), 'y': float(vel[1]), 'z': float(vel[2]),
      'magnitude': float(sum(v**2 for v in vel)**0.5)}] *)
Definition velocity_entry (vel : value) : attempt velocity_json :=
  and_then (cells vel) (fun a =>
    Built (mk_velocity_json (x_ a) (y_ a) (z_ a)
             (sqrt (0 + x_ a * x_ a + y_ a * y_ a + z_ a * z_ a)))).

(** The comprehension over [velocities.items()] that leaves
    ['total_magnitude'] out. *)
Fixpoint velocity_entries (pairs : list (string * value))
  (acc : Dict.t velocity_json) : attempt (Dict.t velocity_json) :=
  match pairs with
  | [] => Built acc
  | (key, vel) :: rest =>
      if negb (String.eqb key "total_magnitude") then
        and_then (velocity_entry vel) (fun e =>
          velocity_entries rest (Dict.set acc key e))
      else velocity_entries rest acc
  end.

Record event_json : Type := mk_event_json {
  datetime_text : string;
  location_json : location_dict;
  velocities_json : Dict.t velocity_json
}.

Record displacement_json : Type := mk_displacement_json {
  vector_km : list R;
  magnitude_km : R;
  magnitude_au : R;
  magnitude_ly : R;
  elapsed_seconds : R;
  elapsed_years : R
}.

Record response : Type := mk_response {
  success : bool;
  birth : event_json;
  current : event_json;
  displacement : displacement_json;
  cosmic_separation : item;
  spacecraft_comparisons : list App.comparison
}.

(** What the handler sends back: a status and a body. *)
Inductive reply : Type :=
| Ok200 (body : response)
| Error500 (error : failure).

Section Formatting.
(** [datetime.isoformat] *)
Variable isoformat : datetime -> string.

Definition event_entry (p : position_data) : attempt event_json :=
  and_then (velocity_entries (velocities p) []) (fun vs =>
    Built (mk_event_json (isoformat (time p)) (location_of p) vs)).

Definition displacement_entry (r : displacement_data)
  : attempt displacement_json :=
  and_then (cells (displacement_vector_km r)) (fun a =>
    Built (mk_displacement_json [x_ a; y_ a; z_ a]
             (displacement_magnitude_km r)
             (displacement_magnitude_au r)
             (displacement_magnitude_ly r)
             (time_elapsed_seconds r)
             (time_elapsed_years r))).

(** [displacement_data[key]] *)
Definition item_of (r : displacement_data) (key : string) : attempt item :=
  match subscript (items r) key with
  | Return i => Built i
  | Raise e => Failed (Uncaught e)
  end.

(** The dictionary literal [response = {...}], its values evaluated in the
    order they are written. *)
Definition build_response (r : displacement_data) : attempt response :=
  and_then (event_entry (birth_data r)) (fun b =>
  and_then (event_entry (current_data r)) (fun c =>
  and_then (displacement_entry r) (fun d =>
  and_then (item_of r "cosmic_separation") (fun sep =>
    Built (mk_response true b c d sep
             (App.generate_spacecraft_comparisons
                (displacement_magnitude_km r))))))).

Definition respond (clock : Z)
  (birth_dt : datetime) (birth_location : location)
  (current_dt : option datetime) (current_location : option location)
  : reply :=
  match compute_displacement clock birth_dt birth_location
          current_dt current_location with
  | Raise e => Error500 (Uncaught e)
  | Return displacement_data =>
      match build_response displacement_data with
      | Built body => Ok200 body
      | Failed e => Error500 e
      end
  end.

End Formatting.

End Api.

(** * Properties *)

(** ** Vectors and dictionaries *)

Section VectorFacts.
Import Np Vocabulary.

Lemma array3_eq (a b : array3) :
  x_ a = x_ b -> y_ a = y_ b -> z_ a = z_ b -> a = b.
Proof. destruct a, b; simpl; intros; subst; reflexivity. Qed.

Lemma add_zeros_l (a : array3) : add zeros3 a = a.
Proof. apply array3_eq; simpl; ring. Qed.

Lemma add_assoc (a b c : array3) : add (add a b) c = add a (add b c).
Proof. apply array3_eq; simpl; ring. Qed.



Lemma vector_sum_cons (a : array3) (l : list array3) :
  vector_sum (a :: l) = add a (vector_sum l).
Proof. reflexivity. Qed.

(** The accumulating loop, started from any [acc], adds the element-wise
    sum of the arrays it meets. *)
Lemma fold_iadd_arrays (l : list array3) :
  forall acc, fold_left iadd (map Arr l) acc = add acc (vector_sum l).
Proof.
  induction l as [|a l IH]; intro acc.
  - apply array3_eq; simpl; ring.
  - simpl fold_left. rewrite IH, vector_sum_cons. simpl iadd.
    apply add_assoc.
Qed.

End VectorFacts.

Module CalculatorFacts.
Import Np CosmicMotionCalculator Vocabulary.

Lemma components_zip lat lon t :
  components lat lon t =
  combine component_names (map Arr (component_vectors lat lon t)).
Proof. reflexivity. Qed.

Lemma values_components lat lon t :
  Dict.values (components lat lon t) = map Arr (component_vectors lat lon t).
Proof. reflexivity. Qed.

Lemma sum_values_components lat lon t :
  sum_values (components lat lon t) =
  vector_sum (component_vectors lat lon t).
Proof.
  unfold sum_values. rewrite values_components, fold_iadd_arrays.
  apply add_zeros_l.
Qed.

(** The finished dictionary, entry by entry. *)
Lemma calculate_total_velocity_entries lat lon t :
  calculate_total_velocity lat lon t =
  (components lat lon t ++
   [ ("total", Arr (sum_values (components lat lon t)));
     ("total_magnitude", Num (norm (sum_values (components lat lon t)))) ])%list.
Proof. reflexivity. Qed.

Lemma get_total lat lon t :
  Dict.get (calculate_total_velocity lat lon t) "total" =
  Some (Arr (vector_sum (component_vectors lat lon t))).
Proof.
  rewrite calculate_total_velocity_entries, sum_values_components.
  reflexivity.
Qed.

Lemma get_total_magnitude lat lon t :
  Dict.get (calculate_total_velocity lat lon t) "total_magnitude" =
  Some (Num (norm (vector_sum (component_vectors lat lon t)))).
Proof.
  rewrite calculate_total_velocity_entries, sum_values_components.
  reflexivity.
Qed.

Lemma get_components lat lon t :
  map (Dict.get (calculate_total_velocity lat lon t)) component_names =
  map (fun v => Some (Arr v)) (component_vectors lat lon t).
Proof. reflexivity. Qed.

(** C1. For every latitude, longitude and instant, the dictionary
    [calculate_total_velocity] returns binds the nine category names to
    nine vectors, binds ['total'] to their element-wise sum and
    ['total_magnitude'] to the Euclidean norm of that sum; ['total'] is
    bound once, after the nine, and nothing rebinds it. *)
Theorem total_is_sum_of_nine_components :
  forall (lat lon : R) (t : Time),
    let d := calculate_total_velocity lat lon t in
    exists (vs : list array3) (total : array3),
      List.length vs = 9%nat /\
      map (Dict.get d) component_names = map (fun v => Some (Arr v)) vs /\
      Dict.get d "total" = Some (Arr total) /\
      x_ total = Rsum (map x_ vs) /\
      y_ total = Rsum (map y_ vs) /\
      z_ total = Rsum (map z_ vs) /\
      Dict.get d "total_magnitude" =
        Some (Num (sqrt (x_ total * x_ total + y_ total * y_ total
                         + z_ total * z_ total))) /\
      Dict.keys d = (component_names ++ ["total"; "total_magnitude"])%list.
Proof.
  intros lat lon t d.
  exists (component_vectors lat lon t),
         (vector_sum (component_vectors lat lon t)).
  split; [reflexivity|].
  split; [apply get_components|].
  split; [apply get_total|].
  do 3 (split; [reflexivity|]).
  split; [apply get_total_magnitude|].
  reflexivity.
Qed.

Lemma scale_direction_radec (s s' ra ra' dec dec' : R) :
  s = s' -> ra = ra' -> dec = dec' ->
  scale s (mk3 (cos (radians dec) * cos (radians ra))
               (cos (radians dec) * sin (radians ra))
               (sin (radians dec)))
  = radec s' ra' dec'.
Proof. intros -> -> ->. reflexivity. Qed.

Lemma radians_0 : radians 0 = 0.
Proof. unfold radians. lra. Qed.

Lemma radians_90 : radians 90 = PI / 2.
Proof. unfold radians. lra. Qed.

Lemma earth_rotation_equator_greenwich t :
  earth_rotation_velocity 0 0 t = mk3 0 0.465 0.
Proof.
  unfold earth_rotation_velocity, EARTH_ROTATION_EQUATOR.
  rewrite radians_0, cos_0, sin_0. apply array3_eq; simpl; lra.
Qed.

Lemma earth_rotation_pole t :
  earth_rotation_velocity 90 0 t = mk3 0 0 0.
Proof.
  unfold earth_rotation_velocity, EARTH_ROTATION_EQUATOR.
  rewrite radians_90, radians_0, cos_PI2, cos_0, sin_0.
  apply array3_eq; simpl; lra.
Qed.

Lemma earth_rotation_equator_east t :
  earth_rotation_velocity 0 90 t = mk3 (-0.465) 0 0.
Proof.
  unfold earth_rotation_velocity, EARTH_ROTATION_EQUATOR.
  rewrite radians_90, radians_0, cos_PI2, cos_0, sin_PI2.
  apply array3_eq; simpl; lra.
Qed.

Lemma get_earth_rotation lat lon t :
  Dict.get (calculate_total_velocity lat lon t) "earth_rotation" =
  Some (Arr (earth_rotation_velocity lat lon t)).
Proof. reflexivity. Qed.

(** C3. The Earth-rotation entry is
    [(-m * sin lon_rad, m * cos lon_rad, 0)] with
    [m = 0.465 * cos lat_rad]; each of the other eight entries is the same
    at every latitude and longitude; and the Earth-rotation entry does
    change with the latitude and with the longitude. *)
Theorem earth_rotation_alone_depends_on_location :
  (forall (lat lon : R) (t : Time),
      let m := 0.465 * cos (lat * PI / 180) in
      Dict.get (calculate_total_velocity lat lon t) "earth_rotation" =
      Some (Arr (mk3 (- m * sin (lon * PI / 180))
                     (m * cos (lon * PI / 180))
                     0))) /\
  Forall (fun k =>
            forall (lat lon lat' lon' : R) (t : Time),
              Dict.get (calculate_total_velocity lat lon t) k =
              Dict.get (calculate_total_velocity lat' lon' t) k)
         fixed_names /\
  (exists (lat lat' lon : R) (t : Time),
      Dict.get (calculate_total_velocity lat lon t) "earth_rotation" <>
      Dict.get (calculate_total_velocity lat' lon t) "earth_rotation") /\
  (exists (lat lon lon' : R) (t : Time),
      Dict.get (calculate_total_velocity lat lon t) "earth_rotation" <>
      Dict.get (calculate_total_velocity lat lon' t) "earth_rotation").
Proof.
  split; [| split; [| split]].
  - intros lat lon t m. rewrite get_earth_rotation.
    unfold earth_rotation_velocity, EARTH_ROTATION_EQUATOR, radians.
    subst m. do 2 f_equal. apply array3_eq; simpl; try reflexivity; lra.
  - repeat constructor.
  - exists 0, 90, 0, (mk_Time (mk_datetime 0 UTC)).
    rewrite !get_earth_rotation, earth_rotation_equator_greenwich,
      earth_rotation_pole.
    intro H. injection H as H. lra.
  - exists 0, 0, 90, (mk_Time (mk_datetime 0 UTC)).
    rewrite !get_earth_rotation, earth_rotation_equator_greenwich,
      earth_rotation_equator_east.
    intro H. injection H as H _. lra.
Qed.

(** C4. The eight entries other than Earth's rotation are constants: five
    are a speed along a right ascension and declination, three are a
    speed along a coordinate axis. *)
Theorem fixed_contributions_are_the_stated_constants :
  forall (lat lon : R) (t : Time),
    let d := calculate_total_velocity lat lon t in
    Dict.get d "solar_system_lsr" = Some (Arr (radec 20.0 270 30)) /\
    Dict.get d "local_group" = Some (Arr (radec 100.0 10.5 41.27)) /\
    Dict.get d "virgo_motion" = Some (Arr (radec 600.0 186.75 12.72)) /\
    Dict.get d "great_attractor" = Some (Arr (radec 600.0 220 (-45))) /\
    Dict.get d "cmb_frame" = Some (Arr (radec 369.0 167.99 (-6.98))) /\
    Dict.get d "earth_orbit" = Some (Arr (mk3 0 29.78 0)) /\
    Dict.get d "galactic_rotation" = Some (Arr (mk3 0 230.0 0)) /\
    Dict.get d "galactic_oscillation" = Some (Arr (mk3 0 0 7.0)).
Proof.
  intros lat lon t d.
  assert (Hdir : forall s ra dec v,
             v = radec s ra dec -> Some (Arr v) = Some (Arr (radec s ra dec)))
    by (intros; subst; reflexivity).
  repeat split; try reflexivity;
    apply Hdir; apply scale_direction_radec; first [reflexivity | lra].
Qed.

(** C10. The dictionary [calculate_total_velocity] returns is the same at
    any two instants: the nine entries, ['total'] and ['total_magnitude']
    do not depend on the time argument. *)
Theorem velocities_independent_of_instant :
  forall (lat lon : R) (t1 t2 : Time),
    earth_rotation_velocity lat lon t1 = earth_rotation_velocity lat lon t2 /\
    earth_orbital_velocity t1 = earth_orbital_velocity t2 /\
    galactic_plane_oscillation_velocity t1 =
      galactic_plane_oscillation_velocity t2 /\
    calculate_total_velocity lat lon t1 = calculate_total_velocity lat lon t2.
Proof. intros lat lon t1 t2. repeat split. Qed.

End CalculatorFacts.

Module DisplacementFacts.
Import Np CosmicMotionCalculator SpaceTimePosition Vocabulary.
Import CalculatorFacts.

Lemma birth_velocities (s : self) :
  velocities (calculate_birth_position s) =
  calculate_total_velocity (birth_latitude s) (birth_longitude s)
    (mk_Time (birth_datetime s)).
Proof. reflexivity. Qed.

Lemma current_velocities (s : self) :
  velocities (calculate_current_position s) =
  calculate_total_velocity (current_latitude s) (current_longitude s)
    (mk_Time (current_datetime s)).
Proof. reflexivity. Qed.

(** [calculate_displacement] raises nothing, and this is what it
    returns. *)
Lemma calculate_displacement_returns (s : self) :
  calculate_displacement s =
  Return
    (let displacement := Arr (rscale (birth_total s) (age_seconds s)) in
     let km := norm (rscale (birth_total s) (age_seconds s)) in
     mk_displacement_data displacement km
       (km / 149597870.7) (km / 9.461e12)
       (age_seconds s) (age_years s)
       (calculate_birth_position s) (calculate_current_position s)).
Proof.
  unfold calculate_displacement, calculate_position_change, subscript.
  rewrite birth_velocities, get_total. reflexivity.
Qed.

Lemma init_fields clock bdt blat blon baddr cdt cloc :
  let s := init clock bdt (blat, blon, baddr) cdt cloc in
  birth_datetime s = bdt /\
  (birth_latitude s, birth_longitude s, birth_address s)
    = (blat, blon, baddr) /\
  current_datetime s = present clock cdt /\
  (current_latitude s, current_longitude s, current_address s)
    = whereabouts (blat, blon, baddr) cloc /\
  age_seconds s = total_seconds_between (present clock cdt) bdt.
Proof.
  destruct cloc as [[[clat clon] caddr]|]; repeat split.
Qed.

(** What [compute_displacement] returns, in terms of its arguments. *)
Lemma compute_displacement_returns clock bdt blat blon baddr cdt cloc :
  exists r : displacement_data,
    compute_displacement clock bdt (blat, blon, baddr) cdt cloc = Return r /\
    displacement_vector_km r =
      Arr (rscale (vector_sum (component_vectors blat blon (mk_Time bdt)))
             (total_seconds_between (present clock cdt) bdt)) /\
    time_elapsed_seconds r = total_seconds_between (present clock cdt) bdt /\
    birth_data r =
      mk_position_data bdt (mk_location_dict blat blon baddr)
        (calculate_total_velocity blat blon (mk_Time bdt)) (mk_Time bdt) /\
    current_data r =
      (let l := whereabouts (blat, blon, baddr) cloc in
       let now := present clock cdt in
       mk_position_data now (as_dict l)
         (calculate_total_velocity (lat_of l) (lon_of l) (mk_Time now))
         (mk_Time now)).
Proof.
  unfold compute_displacement. rewrite calculate_displacement_returns.
  eexists. split; [reflexivity|].
  destruct cloc as [[[clat clon] caddr]|]; repeat split.
Qed.

(** Subtracting two datetimes that carry different [tzinfo] objects, or
    the same offset, gives the time between the two instants. *)
Lemma subtraction_of_instants (a b : datetime) :
  subtract_as_instants a b -> total_seconds_between a b = seconds_from b a.
Proof.
  unfold subtract_as_instants, total_seconds_between, seconds_from,
    wall_micros.
  intros [Hdiff | Hoff].
  - rewrite Hdiff. reflexivity.
  - destruct (same_object (tz a) (tz b)); [|reflexivity].
    rewrite Hoff. do 2 f_equal. lia.
Qed.


(** A datetime in [pytz.UTC] subtracts as an instant from any other. *)
Lemma utc_subtracts_as_instants (instant : Z) (b : datetime) :
  subtract_as_instants (mk_datetime instant UTC) b.
Proof.
  unfold subtract_as_instants. cbn [tz].
  destruct (tz b) as [n o | k o]; cbn [same_object UTC utcoffset].
  - destruct (String.eqb "UTC" n); cbn [andb]; [|left; reflexivity].
    destruct (Z.eqb_spec 0 o) as [<- | _]; [right | left]; reflexivity.
  - left. reflexivity.
Qed.





(** C7. Every result of [calculate_displacement] has its magnitude in
    astronomical units equal to the magnitude in kilometres divided by
    149597870.7 and its magnitude in light-years equal to the magnitude in
    kilometres divided by 9.461e12; multiplying back gives the kilometres
    again. *)
Theorem magnitudes_in_au_and_light_years :
  forall s : self,
  exists r : displacement_data,
    calculate_displacement s = Return r /\
    displacement_magnitude_km r = norm_value (displacement_vector_km r) /\
    displacement_magnitude_au r = displacement_magnitude_km r / 149597870.7 /\
    displacement_magnitude_ly r = displacement_magnitude_km r / 9.461e12 /\
    displacement_magnitude_au r * 149597870.7 = displacement_magnitude_km r /\
    displacement_magnitude_ly r * 9.461e12 = displacement_magnitude_km r.
Proof.
  intro s. rewrite calculate_displacement_returns.
  eexists. split; [reflexivity|]. cbn zeta.
  cbn [displacement_magnitude_km displacement_magnitude_au
       displacement_magnitude_ly displacement_vector_km norm_value].
  do 3 (split; [reflexivity|]).
  split; field; lra.
Qed.

(** C8. With the current location omitted, the current event takes the
    latitude, longitude and label of the birth event; with the current
    instant omitted, it takes the reading of the clock, in UTC. *)
Theorem omitted_current_event_defaults :
  forall (clock : Z) (bdt : datetime) (blat blon : R) (baddr : string),
    (forall cdt : option datetime,
        let s := init clock bdt (blat, blon, baddr) cdt None in
        current_latitude s = blat /\
        current_longitude s = blon /\
        current_address s = baddr /\
        exists r : displacement_data,
          compute_displacement clock bdt (blat, blon, baddr) cdt None
            = Return r /\
          location_of (current_data r) = mk_location_dict blat blon baddr /\
          location_of (current_data r) = location_of (birth_data r)) /\
    (forall cloc : option location,
        let s := init clock bdt (blat, blon, baddr) None cloc in
        current_datetime s = mk_datetime clock UTC /\
        exists r : displacement_data,
          compute_displacement clock bdt (blat, blon, baddr) None cloc
            = Return r /\
          time (current_data r) = mk_datetime clock UTC /\
          time_elapsed_seconds r =
            IZR (clock - utc_micros bdt) / 1000000).
Proof.
  intros. split.
  - intros cdt s. do 3 (split; [reflexivity|]).
    destruct (compute_displacement_returns clock bdt blat blon baddr cdt None)
      as (r & Hr & _ & _ & Hb & Hc).
    exists r. split; [exact Hr|]. rewrite Hb, Hc. split; reflexivity.
  - intros cloc s. split.
    + subst s. destruct cloc as [[[clat clon] caddr]|]; reflexivity.
    + destruct (compute_displacement_returns clock bdt blat blon baddr
                  None cloc) as (r & Hr & _ & He & _ & Hc).
      exists r. split; [exact Hr|]. rewrite Hc, He.
      split; [reflexivity|].
      change (present clock None) with (mk_datetime clock UTC).
      rewrite subtraction_of_instants by apply utc_subtracts_as_instants.
      reflexivity.
Qed.







Lemma validate_coordinates_spec (lat lon : R) :
  LocationGeocoder.validate_coordinates (Some lat) (Some lon) = true <->
  (-90 <= lat <= 90 /\ -180 <= lon <= 180).
Proof.
  unfold LocationGeocoder.validate_coordinates, LocationGeocoder.between.
  destruct (Rle_dec (-90) lat), (Rle_dec lat 90),
    (Rle_dec (-180) lon), (Rle_dec lon 180); simpl;
    split; intro H; try discriminate; try reflexivity; lra.
Qed.

(** C5, as the code has it. [compute_displacement] checks no range: at
    every latitude and longitude it returns a result, which carries the
    coordinates of both events as they were given.  The range check
    (latitude in [-90, 90], longitude in [-180, 180], both present) is the
    separate predicate [validate_coordinates], which answers [False]
    outside the ranges and raises nothing. *)
Theorem every_location_is_accepted :
  (forall (clock : Z) (bdt : datetime) (blat blon : R) (baddr : string)
          (cdt : option datetime) (cloc : option location),
      exists r : displacement_data,
        compute_displacement clock bdt (blat, blon, baddr) cdt cloc
          = Return r /\
        location_of (birth_data r) = mk_location_dict blat blon baddr /\
        location_of (current_data r)
          = as_dict (whereabouts (blat, blon, baddr) cloc)) /\
  (forall lat lon : R,
      LocationGeocoder.validate_coordinates (Some lat) (Some lon) = true <->
      (-90 <= lat <= 90 /\ -180 <= lon <= 180)) /\
  (forall lat lon : option R,
      LocationGeocoder.validate_coordinates None lon = false /\
      LocationGeocoder.validate_coordinates lat None = false).
Proof.
  split; [| split].
  - intros.
    destruct (compute_displacement_returns clock bdt blat blon baddr cdt cloc)
      as (r & Hr & _ & _ & Hb & Hc).
    exists r. split; [exact Hr|]. rewrite Hb, Hc. split; reflexivity.
  - exact validate_coordinates_spec.
  - intros lat lon. split; [reflexivity|]. destruct lat; reflexivity.
Qed.

Lemma every_location_is_accepted_witness :
  LocationGeocoder.validate_coordinates (Some 39.1001) (Some (-94.5781))
    = true /\
  (-90 <= 39.1001 <= 90 /\ -180 <= -94.5781 <= 180).
Proof.
  destruct every_location_is_accepted as (_ & Hrange & _).
  assert (Hvalid : LocationGeocoder.validate_coordinates
                     (Some 39.1001) (Some (-94.5781)) = true)
    by (apply (proj2 (Hrange 39.1001 (-94.5781))); lra).
  split.
  - exact Hvalid.
  - exact (proj1 (Hrange 39.1001 (-94.5781)) Hvalid).
Defined.

(** C5, as stated, fails: latitude 100 is out of range, and
    [compute_displacement] returns a result there and raises nothing. *)
Lemma out_of_range_latitude_is_accepted :
  in_range (100, 0, "beyond the pole") = false /\
  (exists r : displacement_data,
      compute_displacement 0 (mk_datetime 0 UTC)
        (100, 0, "beyond the pole") None None = Return r /\
      latitude (location_of (birth_data r)) = 100) /\
  (forall e : exn,
      compute_displacement 0 (mk_datetime 0 UTC)
        (100, 0, "beyond the pole") None None <> Raise e).
Proof.
  split; [| split].
  - destruct (in_range (100, 0, "beyond the pole")) eqn:E; [|reflexivity].
    apply validate_coordinates_spec in E. lra.
  - destruct (compute_displacement_returns 0 (mk_datetime 0 UTC) 100 0
                "beyond the pole" None None) as (r & Hr & _ & _ & Hb & _).
    exists r. split; [exact Hr|]. rewrite Hb. reflexivity.
  - intros e.
    destruct (compute_displacement_returns 0 (mk_datetime 0 UTC) 100 0
                "beyond the pole" None None) as (r & Hr & _).
    rewrite Hr. discriminate.
Qed.

End DisplacementFacts.

Module SpacecraftFacts.
Import Vocabulary.

(** Each comparison of two cruise speeds is settled by arithmetic. *)
Ltac decide_speeds :=
  repeat (cbn [fold_right Report.insert_desc speed_kms];
          match goal with
          | |- context [Rle_dec ?a ?b] =>
              destruct (Rle_dec a b); [try lra | try lra]
          end).

(** Sorted by descending speed, the catalogue of the report is the
    catalogue of [app.py]. *)
Lemma report_catalog_is_app_catalog :
  Report.sort_desc Report.catalog = App.catalog.
Proof.
  unfold Report.sort_desc, Report.catalog.
  decide_speeds. reflexivity.
Qed.

(** C9. For a distance of [D] km, [generate_spacecraft_comparisons]
    returns one entry for each of the five craft of the catalogue; each
    has [travel_time_seconds = D / S], with [S] the cruise speed of the
    craft, and [travel_time_years = travel_time_seconds / (365.25 * 24 *
    3600)].  The report computes the same two quantities for the same five
    craft. *)
Theorem spacecraft_travel_times :
  forall D : R,
    roster (map App.craft (App.generate_spacecraft_comparisons D)) =
      [ ("Parker Solar Probe", 163.0); ("Juno", 73.61); ("Helios 2", 70.22);
        ("Helios 1", 68.75); ("New Horizons", 58.54) ] /\
    Forall (fun c =>
              App.travel_time_seconds c = D / speed_kms (App.craft c) /\
              App.travel_time_years c =
                App.travel_time_seconds c / (365.25 * 24 * 3600))
           (App.generate_spacecraft_comparisons D) /\
    roster (map Report.craft (Report.travel_times D)) =
      roster (map App.craft (App.generate_spacecraft_comparisons D)) /\
    Forall (fun c =>
              Report.travel_time_seconds c = D / speed_kms (Report.craft c) /\
              Report.travel_time_years c =
                Report.travel_time_seconds c / (365.25 * 24 * 3600))
           (Report.travel_times D).
Proof.
  intro D. split; [reflexivity|]. split; [| split].
  - unfold App.generate_spacecraft_comparisons.
    apply Forall_map, Forall_forall. intros c _. split; reflexivity.
  - unfold Report.travel_times.
    rewrite report_catalog_is_app_catalog. reflexivity.
  - unfold Report.travel_times.
    apply Forall_map, Forall_forall. intros c _.
    cbn [Report.travel_time_seconds Report.travel_time_years Report.craft].
    split; [reflexivity|].
    generalize (D / speed_kms c). intro u. field. lra.
Qed.

End SpacecraftFacts.

(** ** Magnitudes of the contributions *)

Module MagnitudeFacts.
Import Np CosmicMotionCalculator Vocabulary Measures.


















End MagnitudeFacts.

(** ** Dictionaries: binding and reading *)

Section DictFacts.
Context {V : Type}.

Lemma get_set_same (d : Dict.t V) (k : string) (v : V) :
  Dict.get (Dict.set d k v) k = Some v.
Proof.
  induction d as [|[k' v'] d IH]; simpl.
  - rewrite String.eqb_refl. reflexivity.
  - destruct (String.eqb k k') eqn:E; simpl; rewrite E.
    + reflexivity.
    + exact IH.
Qed.

Lemma get_set_other (d : Dict.t V) (k k' : string) (v : V) :
  k' <> k -> Dict.get (Dict.set d k v) k' = Dict.get d k'.
Proof.
  intro Hne. induction d as [|[k0 v0] d IH]; simpl.
  - apply String.eqb_neq in Hne. rewrite Hne. reflexivity.
  - destruct (String.eqb k k0) eqn:E; simpl.
    + apply String.eqb_eq in E. subst k0.
      apply String.eqb_neq in Hne. rewrite Hne. reflexivity.
    + rewrite IH. reflexivity.
Qed.

End DictFacts.

(** ** Journeys *)

Module JourneyFacts.
Import Np CosmicMotionCalculator SpaceTimePosition Vocabulary Measures.
Import MagnitudeFacts.

(** X7. [calculate_position_change] reads ['total'] and nothing else: on a
    dictionary where ['total'] was just bound to a vector it returns that
    vector times the interval, whatever else the dictionary holds; on a
    dictionary without ['total'] it raises [KeyError('total')]. *)
Theorem position_change_reads_total :
  forall (d : Dict.t value) (v : array3) (s : R),
    calculate_position_change (Dict.set d "total" (Arr v)) s
      = Return (Arr (mk3 (x_ v * s) (y_ v * s) (z_ v * s))) /\
    (Dict.get d "total" = None ->
     calculate_position_change d s = Raise (KeyError "total")).
Proof.
  intros d v s. unfold calculate_position_change, subscript. split.
  - rewrite get_set_same. reflexivity.
  - intros ->. reflexivity.
Qed.

Lemma position_change_reads_total_witness :
  Dict.get (components 0 0 (mk_Time (mk_datetime 0 UTC))) "total" = None /\
  calculate_position_change
    (components 0 0 (mk_Time (mk_datetime 0 UTC))) 1
  = Raise (KeyError "total").
Proof.
  split.
  - reflexivity.
  - apply (proj2 (position_change_reads_total
                    (components 0 0 (mk_Time (mk_datetime 0 UTC)))
                    (mk3 0 0 0) 1)).
    reflexivity.
Defined.

(** X24. The velocities reported for the current event are those of the
    birth event whenever the two places have the same latitude and
    longitude, in particular when the current place is omitted, however
    far apart the two instants are. *)
Theorem same_place_same_velocities :
  forall (clock : Z) (bdt : datetime) (blat blon : R) (baddr caddr : string)
         (cdt : option datetime),
    (exists r : displacement_data,
        compute_displacement clock bdt (blat, blon, baddr) cdt None
          = Return r /\
        velocities (current_data r) = velocities (birth_data r)) /\
    (exists r : displacement_data,
        compute_displacement clock bdt (blat, blon, baddr) cdt
          (Some (blat, blon, caddr)) = Return r /\
        velocities (current_data r) = velocities (birth_data r)).
Proof.
  intros. split.
  - destruct (DisplacementFacts.compute_displacement_returns
                clock bdt blat blon baddr cdt None)
      as (r & Hr & _ & _ & Hb & Hc).
    exists r. split; [exact Hr|]. rewrite Hb, Hc. reflexivity.
  - destruct (DisplacementFacts.compute_displacement_returns
                clock bdt blat blon baddr cdt (Some (blat, blon, caddr)))
      as (r & Hr & _ & _ & Hb & Hc).
    exists r. split; [exact Hr|]. rewrite Hb, Hc. reflexivity.
Qed.

End JourneyFacts.

(** ** Geocoding with retries *)

Module GeocodingFacts.
Import Geocoding.

Section Service.
Variable service : Type.
Variable geocode : string -> service -> outcome * service.

Let run := Geocoding.attempts service geocode.
Let locate := Geocoding.geocode_location service geocode.
Let fallback := Geocoding.geocode_with_fallback service geocode.

Lemma slept_cons_query (q : string) (evs : list event) :
  slept (Query q :: evs) = slept evs.
Proof. reflexivity. Qed.

Lemma slept_cons_sleep (n : Z) (evs : list event) :
  slept (Sleep n :: evs) = (n + slept evs)%Z.
Proof. reflexivity. Qed.

Lemma slept_app (e1 e2 : list event) :
  slept (e1 ++ e2) = (slept e1 + slept e2)%Z.
Proof.
  induction e1 as [|[q|n] e1 IH]; simpl app.
  - reflexivity.
  - rewrite !slept_cons_query. exact IH.
  - rewrite !slept_cons_sleep, IH. lia.
Qed.

Lemma queries_app (e1 e2 : list event) :
  queries (e1 ++ e2) = (queries e1 ++ queries e2)%list.
Proof. unfold queries. apply flat_map_app. Qed.

Lemma single_query_within_budget (str : string) (a n : Z) :
  (0 <= a < n)%Z -> within_budget str a n [Query str].
Proof.
  intros Ha. unfold within_budget. cbn.
  repeat split; try lia; try (constructor; auto; fail); try constructor.
  nia.
Qed.

Lemma retry_within_budget (str : string) (a n w : Z) (evs : list event) :
  (0 <= a)%Z -> (a < n - 1)%Z -> (2 <= w <= 2 * (a + 1))%Z ->
  within_budget str (a + 1) n evs ->
  within_budget str a n (Query str :: Sleep w :: evs).
Proof.
  intros Ha Hlt Hw (Hlen & Hq & Hstr & Hws & Hsum). unfold within_budget.
  cbn [queries sleeps flat_map app List.length].
  fold (queries evs). fold (sleeps evs).
  rewrite slept_cons_query, slept_cons_sleep.
  repeat split.
  - cbn. lia.
  - cbn [List.length]. lia.
  - constructor; auto.
  - constructor; [lia | exact Hws].
  - lia.
  - nia.
Qed.

Lemma attempts_within_budget (rem : nat) :
  forall (a n : Z) (str : string) (s : service),
    (0 <= a)%Z -> (a + Z.of_nat rem = n)%Z -> (0 < rem)%nat ->
    within_budget str a n (snd (run rem a n str s)).
Proof.
  induction rem as [|rem IH]; intros a n str s Ha Hn Hrem; [lia|].
  unfold run in *. cbn [Geocoding.attempts].
  destruct (geocode str s) as [o s1].
  assert (Hone : within_budget str a n [Query str])
    by (apply single_query_within_budget; lia).
  assert (Hagain : forall w, (2 <= w <= 2 * (a + 1))%Z ->
            (a <? n - 1)%Z = true ->
            within_budget str a n
              (snd (let '(r, s2, evs) := run rem (a + 1) n str s1 in
                    (r, s2, Query str :: Sleep w :: evs)))).
  { intros w Hw Hlt. apply Z.ltb_lt in Hlt.
    pose proof (IH (a + 1)%Z n str s1) as IH'. unfold run in IH' |- *.
    destruct (Geocoding.attempts service geocode rem (a + 1) n str s1)
      as [[r s2] evs] eqn:E.
    change (within_budget str a n (Query str :: Sleep w :: evs)).
    apply retry_within_budget; try lia.
    apply IH'; lia. }
  destruct o; try exact Hone.
  - destruct (a <? n - 1)%Z; [apply Hagain; [lia | reflexivity] | exact Hone].
  - destruct (a <? n - 1)%Z; [apply Hagain; [lia | reflexivity] | exact Hone].
  - destruct (a <? n - 1)%Z; [apply Hagain; [lia | reflexivity] | exact Hone].
Qed.

Lemma geocode_location_idle (str : string) (n : Z) (s : service) :
  (n <= 0)%Z -> locate str n s = (None, s, []).
Proof.
  intro Hn. unfold locate, Geocoding.geocode_location.
  replace (Z.to_nat n) with 0%nat by lia. reflexivity.
Qed.

Lemma geocode_location_within_budget (str : string) (n : Z) (s : service) :
  (0 < n)%Z -> within_budget str 0 n (snd (locate str n s)).
Proof.
  intro Hn. unfold locate, Geocoding.geocode_location.
  apply attempts_within_budget; lia.
Qed.

(** The events of a run alternate: a request, then a sleep and a request
    for each retry. *)
Lemma attempts_alternate (rem : nat) :
  forall (a n : Z) (str : string) (s : service),
    (a + Z.of_nat rem = n)%Z -> (0 < rem)%nat ->
    exists waits : list Z,
      snd (run rem a n str s) = requests_with_waits str waits.
Proof.
  unfold run.
  induction rem as [|rem IH]; intros a n str s Hn Hrem; [lia|].
  cbn [Geocoding.attempts].
  destruct (geocode str s) as [o s1].
  assert (Hone : exists waits,
             [Query str] = requests_with_waits str waits)
    by (exists []; reflexivity).
  assert (Hagain : forall w, (a <? n - 1)%Z = true ->
            exists waits,
              snd (let '(r, s2, evs) :=
                     Geocoding.attempts service geocode rem (a + 1) n str s1 in
                   (r, s2, Query str :: Sleep w :: evs))
              = requests_with_waits str waits).
  { intros w Hlt. apply Z.ltb_lt in Hlt.
    destruct (IH (a + 1)%Z n str s1 ltac:(lia) ltac:(lia)) as (ws & Hws).
    destruct (Geocoding.attempts service geocode rem (a + 1) n str s1)
      as [[r s2] evs].
    cbn [snd] in *. subst evs. exists (w :: ws). reflexivity. }
  destruct o; try exact Hone.
  - destruct (a <? n - 1)%Z; [apply Hagain; reflexivity | exact Hone].
  - destruct (a <? n - 1)%Z; [apply Hagain; reflexivity | exact Hone].
  - destruct (a <? n - 1)%Z; [apply Hagain; reflexivity | exact Hone].
Qed.

Lemma sleeps_of_requests_with_waits (str : string) (waits : list Z) :
  sleeps (requests_with_waits str waits) = waits.
Proof.
  unfold requests_with_waits. cbn [sleeps flat_map app].
  induction waits as [|w ws IH]; [reflexivity|].
  cbn [flat_map app]. cbn [sleeps flat_map app] in IH |- *.
  rewrite IH. reflexivity.
Qed.

(** X10. [geocode_location] with no attempt allowed asks nothing and
    answers "not found".  With [n] attempts allowed, what it does is one
    request, then a sleep and a further request for each retry: requests
    and sleeps alternate, the first and the last event are requests, so it
    sleeps exactly once between two consecutive requests and never after
    the last.  It makes at least one request and at most [n], always for
    the given string; each sleep lasts between 2 and [2 * (n - 1)] seconds,
    and all of them [n * (n - 1)] seconds at most. *)
Theorem retries_stay_within_budget :
  forall (str : string) (n : Z) (s : service),
    ((n <= 0)%Z -> locate str n s = (None, s, [])) /\
    ((0 < n)%Z ->
     let evs := snd (locate str n s) in
     (exists waits : list Z,
         evs = requests_with_waits str waits /\
         (Z.of_nat (List.length waits) < n)%Z /\
         Forall (fun w => 2 <= w <= 2 * (n - 1))%Z waits /\
         (0 <= fold_right Z.add 0 waits <= n * (n - 1))%Z) /\
     (1 <= List.length (queries evs) <= Z.to_nat n)%nat /\
     (List.length (sleeps evs) + 1 = List.length (queries evs))%nat /\
     Forall (eq str) (queries evs) /\
     Forall (fun w => 2 <= w <= 2 * (n - 1))%Z (sleeps evs) /\
     (0 <= slept evs <= n * (n - 1))%Z).
Proof.
  intros str n s. split.
  - apply geocode_location_idle.
  - intros Hn evs.
    destruct (geocode_location_within_budget str n s Hn)
      as (Hlen & Hq & Hstr & Hws & Hsum).
    fold evs in Hlen, Hq, Hstr, Hws, Hsum.
    split; [| repeat split; try assumption; lia].
    destruct (attempts_alternate (Z.to_nat n) 0 n str s ltac:(lia) ltac:(lia))
      as (waits & Hshape).
    change (snd (run (Z.to_nat n) 0 n str s)) with evs in Hshape.
    exists waits. split; [exact Hshape|].
    assert (Hsl : sleeps evs = waits)
      by (rewrite Hshape; apply sleeps_of_requests_with_waits).
    unfold slept in Hsum. rewrite Hsl in Hlen, Hws, Hsum.
    repeat split; try assumption; lia.
Qed.

(** What the loop does when attempt [k] is the first that does not
    raise. *)
Lemma attempts_first_answer (k : nat) :
  forall (rem : nat) (a n : Z) (str : string) (s : service),
    (0 <= a)%Z -> (a + Z.of_nat rem = n)%Z -> (k < rem)%nat ->
    (forall j, (j < k)%nat -> raises (nth_outcome geocode str j s) = true) ->
    raises (nth_outcome geocode str k s) = false ->
    fst (fst (run rem a n str s)) = answer (nth_outcome geocode str k s) /\
    List.length (queries (snd (run rem a n str s))) = S k /\
    List.length (sleeps (snd (run rem a n str s))) = k.
Proof.
  unfold run.
  induction k as [|k IH]; intros rem a n str s Ha Hn Hk Hbefore Hat;
    (destruct rem as [|rem]; [lia|]); cbn [Geocoding.attempts].
  - cbn [nth_outcome] in Hat |- *.
    destruct (geocode str s) as [o s1]. cbn [fst] in *.
    destruct o; try discriminate; repeat split.
  - pose proof (Hbefore 0%nat ltac:(lia)) as H0.
    assert (Hrest : forall j, (j < k)%nat ->
              raises (nth_outcome geocode str j (snd (geocode str s))) = true)
      by (intros j Hj; apply (Hbefore (S j)); lia).
    cbn [nth_outcome] in H0, Hat |- *.
    specialize (IH rem (a + 1)%Z n str (snd (geocode str s))).
    destruct (geocode str s) as [o s1]. cbn [fst snd] in *.
    assert (Hlt : (a <? n - 1)%Z = true) by (apply Z.ltb_lt; lia).
    rewrite Hlt.
    assert (IH' := IH ltac:(lia) ltac:(lia) ltac:(lia) Hrest Hat).
    destruct (Geocoding.attempts service geocode rem (a + 1) n str s1)
      as [[r s2] evs].
    cbn [fst snd] in IH'. destruct IH' as (Hr & Hq & Hs).
    destruct o; try discriminate; cbn [fst snd];
      cbn [queries sleeps flat_map app List.length];
      fold (queries evs); fold (sleeps evs);
      repeat split; try assumption; cbn [List.length]; lia.
Qed.

(** X11. If the attempt number [k] (counted from 0, with [k] below the
    number of attempts allowed) is the first at which the service does not
    raise, [geocode_location] returns what the service answered then, a
    location or "not found", after [k + 1] requests and [k] sleeps: an
    answer of "not found" is not retried. *)
Theorem first_answer_ends_the_retries :
  forall (str : string) (n : Z) (s : service) (k : nat),
    (Z.of_nat k < n)%Z ->
    (forall j, (j < k)%nat -> raises (nth_outcome geocode str j s) = true) ->
    raises (nth_outcome geocode str k s) = false ->
    fst (fst (locate str n s)) = answer (nth_outcome geocode str k s) /\
    List.length (queries (snd (locate str n s))) = S k /\
    List.length (sleeps (snd (locate str n s))) = k.
Proof.
  intros str n s k Hk Hbefore Hat.
  unfold locate, Geocoding.geocode_location.
  apply attempts_first_answer; try assumption; lia.
Qed.

Lemma attempts_backing_off (rem : nat) :
  forall (a n : Z) (str : string) (s : service),
    (0 <= a)%Z -> (a + Z.of_nat rem = n)%Z ->
    (forall j, (j < rem)%nat ->
               backs_off (nth_outcome geocode str j s) = true) ->
    fst (fst (run rem a n str s)) = None /\
    List.length (queries (snd (run rem a n str s))) = rem /\
    sleeps (snd (run rem a n str s))
    = map (fun j => 2 * (a + Z.of_nat j + 1))%Z (seq 0 (rem - 1)).
Proof.
  unfold run.
  induction rem as [|rem IH]; intros a n str s Ha Hn Hall;
    cbn [Geocoding.attempts].
  - repeat split.
  - pose proof (Hall 0%nat ltac:(lia)) as H0. cbn [nth_outcome] in H0.
    assert (Hrest : forall j, (j < rem)%nat ->
              backs_off (nth_outcome geocode str j (snd (geocode str s)))
              = true)
      by (intros j Hj; apply (Hall (S j)); lia).
    specialize (IH (a + 1)%Z n str (snd (geocode str s))).
    destruct (geocode str s) as [o s1]. cbn [fst snd] in *.
    assert (IH' := IH ltac:(lia) ltac:(lia) Hrest).
    clear IH.
    destruct (a <? n - 1)%Z eqn:Hlt.
    + apply Z.ltb_lt in Hlt.
      destruct (Geocoding.attempts service geocode rem (a + 1) n str s1)
        as [[r s2] evs].
      cbn [fst snd] in IH'. destruct IH' as (Hr & Hq & Hs).
      assert (Hrem : rem = S (rem - 1)) by lia.
      destruct o; try discriminate; cbn [fst snd];
        cbn [queries sleeps flat_map app List.length];
        fold (queries evs); fold (sleeps evs);
        (split; [exact Hr|]); (split; [cbn [List.length]; lia|]);
        rewrite Hs; replace (S rem - 1)%nat with (S (rem - 1)) by lia;
        cbn [seq map]; rewrite <- seq_shift, map_map;
        (f_equal; [lia|]); apply map_ext; intro j; lia.
    + apply Z.ltb_ge in Hlt. assert (rem = 0%nat) by lia. subst rem.
      destruct o; try discriminate; repeat split.
Qed.

(** X12. When every attempt times out or meets a service error,
    [geocode_location] answers "not found" after exactly [n] requests, and
    the waits between them are 2, 4, 6, ... seconds: they grow by 2 seconds
    each time, and with the default of 5 attempts they are 2, 4, 6 and 8
    seconds. *)
Theorem persistent_failures_back_off_linearly :
  forall (str : string) (n : Z) (s : service),
    (0 < n)%Z ->
    (forall j, (j < Z.to_nat n)%nat ->
               backs_off (nth_outcome geocode str j s) = true) ->
    fst (fst (locate str n s)) = None /\
    List.length (queries (snd (locate str n s))) = Z.to_nat n /\
    sleeps (snd (locate str n s))
    = map (fun j => 2 * (Z.of_nat j + 1))%Z (seq 0 (Z.to_nat n - 1)) /\
    (n = 5%Z -> sleeps (snd (locate str n s)) = [2; 4; 6; 8]%Z).
Proof.
  intros str n s Hn Hall.
  destruct (attempts_backing_off (Z.to_nat n) 0 n str s) as (Hr & Hq & Hs);
    try assumption; try lia.
  unfold locate, Geocoding.geocode_location. unfold run in *.
  split; [exact Hr|]. split; [exact Hq|]. split; [exact Hs|].
  intros ->. rewrite Hs. reflexivity.
Qed.

Lemma Forall_eq_repeat (x : string) (l : list string) :
  Forall (eq x) l -> l = repeat x (List.length l).
Proof.
  induction 1 as [|y l Hy _ IH]; cbn; [reflexivity|].
  subst y. f_equal. exact IH.
Qed.

(** One call of [geocode_location] with the default of five attempts. *)
Lemma locate_default (str : string) (s : service) :
  exists m : nat,
    (m <= 5)%nat /\
    queries (snd (locate str 5 s)) = repeat str m /\
    (0 <= slept (snd (locate str 5 s)) <= 20)%Z.
Proof.
  destruct (geocode_location_within_budget str 5 s ltac:(lia))
    as (_ & Hq & Hstr & _ & Hsum).
  exists (List.length (queries (snd (locate str 5 s)))).
  split; [lia|]. split; [apply Forall_eq_repeat, Hstr | lia].
Qed.

(** X13. [geocode_with_fallback] asks for at most three strings, in this
    order: the text under ['full'], the filled components joined by
    [", "], the text under ['country']; each at most five times, and it
    sleeps 60 seconds at most in all. *)
Theorem fallback_asks_in_order :
  forall (d : Dict.t string) (s : service),
  exists n1 n2 n3 : nat,
    (n1 <= 5)%nat /\ (n2 <= 5)%nat /\ (n3 <= 5)%nat /\
    queries (snd (fallback d s))
    = (repeat (text d "full") n1
       ++ repeat (Str.join ", " (address_components d)) n2
       ++ repeat (text d "country") n3)%list /\
    (0 <= slept (snd (fallback d s)) <= 60)%Z.
Proof.
  intros d s. unfold fallback, Geocoding.geocode_with_fallback.
  (* the full text *)
  assert (H1 : exists n1, (n1 <= 5)%nat /\
            queries (snd (match filled d "full" with
                          | Some full => locate full 5 s
                          | None => (None, s, [])
                          end)) = repeat (text d "full") n1 /\
            (0 <= slept (snd (match filled d "full" with
                               | Some full => locate full 5 s
                               | None => (None, s, [])
                               end)) <= 20)%Z).
  { unfold filled, text. destruct (Dict.get d "full") as [v|].
    - destruct (Str.truthy v).
      + apply locate_default.
      + exists 0%nat. cbn. repeat split; lia.
    - exists 0%nat. cbn. repeat split; lia. }
  unfold locate in H1.
  destruct (match filled d "full" with
            | Some full => Geocoding.geocode_location service geocode full 5 s
            | None => (None, s, [])
            end) as [[r1 s1] e1].
  cbn [snd] in H1. destruct H1 as (n1 & Hn1 & Hq1 & Hs1).
  destruct r1 as [loc1|].
  { exists n1, 0%nat, 0%nat. cbn [snd repeat app].
    rewrite app_nil_r. repeat split; try lia; assumption. }
  (* the components *)
  assert (H2 : exists n2, (n2 <= 5)%nat /\
            queries (snd (match address_components d with
                          | [] => (None, s1, [])
                          | c :: cs => locate (Str.join ", " (c :: cs)) 5 s1
                          end))
            = repeat (Str.join ", " (address_components d)) n2 /\
            (0 <= slept (snd (match address_components d with
                               | [] => (None, s1, [])
                               | c :: cs =>
                                   locate (Str.join ", " (c :: cs)) 5 s1
                               end)) <= 20)%Z).
  { destruct (address_components d) as [|c cs].
    - exists 0%nat. cbn. repeat split; lia.
    - apply locate_default. }
  unfold locate in H2.
  destruct (match address_components d with
            | [] => (None, s1, [])
            | c :: cs =>
                Geocoding.geocode_location service geocode
                  (Str.join ", " (c :: cs)) 5 s1
            end) as [[r2 s2] e2].
  cbn [snd] in H2. destruct H2 as (n2 & Hn2 & Hq2 & Hs2).
  destruct r2 as [loc2|].
  { exists n1, n2, 0%nat. cbn [snd repeat].
    rewrite app_nil_r, queries_app, slept_app, Hq1, Hq2.
    repeat split; try lia. }
  (* the country *)
  unfold filled, text. destruct (Dict.get d "country") as [v|].
  - destruct (Str.truthy v).
    + destruct (locate_default v s2) as (n3 & Hn3 & Hq3 & Hs3).
      unfold locate in Hq3, Hs3.
      destruct (Geocoding.geocode_location service geocode v 5 s2)
        as [[r3 s3] e3].
      cbn [snd] in *. exists n1, n2, n3.
      rewrite !queries_app, !slept_app, Hq1, Hq2, Hq3.
      repeat split; try lia.
    + exists n1, n2, 0%nat. cbn [snd repeat].
      rewrite app_nil_r, queries_app, slept_app, Hq1, Hq2.
      repeat split; try lia.
  - exists n1, n2, 0%nat. cbn [snd repeat].
    rewrite app_nil_r, queries_app, slept_app, Hq1, Hq2.
    repeat split; try lia.
Qed.

Lemma locate_starts_with_query (str : string) (n : Z) (s : service) :
  (0 < n)%Z ->
  exists evs, snd (locate str n s) = Query str :: evs.
Proof.
  intro Hn. unfold locate, Geocoding.geocode_location.
  destruct (Z.to_nat n) as [|rem] eqn:E; [lia|].
  cbn [Geocoding.attempts].
  destruct (geocode str s) as [o s1].
  destruct (Geocoding.attempts service geocode rem (0 + 1) n str s1)
    as [[r s2] evs].
  destruct o; try (destruct (0 <? n - 1)%Z); cbn [snd]; eexists; reflexivity.
Qed.

Lemma full_of_parsed_input (input : string) :
  Dict.get (parse_location_input input) "full" = Some input.
Proof. unfold parse_location_input. apply get_set_same. Qed.

(** X15. After [parse_location_input], [geocode_with_fallback] asks the
    service for the text the user typed before anything else; when the user
    typed nothing it asks nothing, leaves the service alone and answers
    "not found". *)
Theorem typed_text_is_asked_first :
  forall (input : string) (s : service),
    (input = EmptyString ->
     fallback (parse_location_input input) s = (None, s, [])) /\
    (input <> EmptyString ->
     hd_error (queries (snd (fallback (parse_location_input input) s)))
     = Some input).
Proof.
  intros input s. split.
  - intros ->. reflexivity.
  - intro Hne. unfold fallback, Geocoding.geocode_with_fallback, filled.
    rewrite full_of_parsed_input.
    assert (Ht : Str.truthy input = true)
      by (destruct input; [congruence | reflexivity]).
    rewrite Ht.
    destruct (locate_starts_with_query input 5 s ltac:(lia)) as (evs & He).
    unfold locate in He.
    destruct (Geocoding.geocode_location service geocode input 5 s)
      as [[r1 s1] e1].
    cbn [snd] in He. subst e1.
    destruct r1 as [loc|]; [reflexivity|].
    destruct (match address_components (parse_location_input input) with
              | [] => (None, s1, [])
              | c :: cs =>
                  Geocoding.geocode_location service geocode
                    (Str.join ", " (c :: cs)) 5 s1
              end) as [[r2 s2] e2].
    destruct r2 as [loc|]; [reflexivity|].
    destruct (Dict.get (parse_location_input input) "country") as [v|];
      [destruct (Str.truthy v);
       [destruct (Geocoding.geocode_location service geocode v 5 s2)
          as [[r3 s3] e3] |] |];
      reflexivity.
Qed.

End Service.

Lemma retries_stay_within_budget_witness :
  geocode_location (list outcome) scripted "Paris" 0 [TimedOut]
    = (None, [TimedOut], []) /\
  (exists waits : list Z,
      snd (geocode_location (list outcome) scripted "Paris" 5
             [TimedOut; OtherError; NoMatch])
      = requests_with_waits "Paris" waits /\
      (0 <= fold_right Z.add 0 waits <= 5 * (5 - 1))%Z).
Proof.
  split.
  - apply (proj1 (retries_stay_within_budget (list outcome) scripted
                    "Paris" 0 [TimedOut])).
    lia.
  - destruct (proj2 (retries_stay_within_budget (list outcome) scripted
                       "Paris" 5 [TimedOut; OtherError; NoMatch])
                ltac:(lia))
      as ((waits & Hshape & _ & _ & Hsum) & _).
    exists waits. split; [exact Hshape | exact Hsum].
Defined.

Lemma first_answer_ends_the_retries_witness :
  fst (fst (geocode_location (list outcome) scripted "Paris" 5
              [TimedOut; Located 48.8566 2.3522 "Paris, France"; TimedOut]))
    = Some (48.8566, 2.3522, "Paris, France") /\
  List.length
    (queries (snd (geocode_location (list outcome) scripted "Paris" 5
                     [TimedOut; Located 48.8566 2.3522 "Paris, France";
                      TimedOut]))) = 2%nat /\
  List.length
    (sleeps (snd (geocode_location (list outcome) scripted "Paris" 5
                    [TimedOut; Located 48.8566 2.3522 "Paris, France";
                     TimedOut]))) = 1%nat.
Proof.
  apply (first_answer_ends_the_retries (list outcome) scripted "Paris" 5
           [TimedOut; Located 48.8566 2.3522 "Paris, France"; TimedOut] 1).
  - lia.
  - intros j Hj. assert (j = 0%nat) by lia. subst j. reflexivity.
  - reflexivity.
Defined.

Lemma persistent_failures_back_off_linearly_witness :
  fst (fst (geocode_location (list outcome) scripted "Paris" 5
              (repeat TimedOut 5))) = None /\
  List.length
    (queries (snd (geocode_location (list outcome) scripted "Paris" 5
                     (repeat TimedOut 5)))) = 5%nat /\
  sleeps (snd (geocode_location (list outcome) scripted "Paris" 5
                 (repeat TimedOut 5))) = [2; 4; 6; 8]%Z.
Proof.
  pose proof (persistent_failures_back_off_linearly (list outcome) scripted
                "Paris" 5 (repeat TimedOut 5)) as H.
  destruct H as (Hr & Hq & _ & Hs).
  - lia.
  - intros j Hj. change (Z.to_nat 5) with 5%nat in Hj.
    do 5 (destruct j as [|j]; [reflexivity|]). lia.
  - split; [exact Hr|]. split; [exact Hq|]. apply Hs. reflexivity.
Defined.

Lemma typed_text_is_asked_first_witness :
  geocode_with_fallback (list outcome) scripted
    (parse_location_input "") [TimedOut] = (None, [TimedOut], []) /\
  hd_error
    (queries (snd (geocode_with_fallback (list outcome) scripted
                     (parse_location_input "Paris, France") [NoMatch])))
  = Some "Paris, France".
Proof.
  split.
  - apply (proj1 (typed_text_is_asked_first (list outcome) scripted
                    "" [TimedOut])).
    reflexivity.
  - apply (proj2 (typed_text_is_asked_first (list outcome) scripted
                    "Paris, France" [NoMatch])).
    discriminate.
Defined.

Lemma split_not_empty (sep : ascii) (s : string) : Str.split sep s <> [].
Proof.
  destruct s as [|c s]; cbn; [discriminate|].
  destruct (Ascii.eqb c sep); [discriminate|].
  destruct (Str.split sep s); discriminate.
Qed.

(** X14. [parse_location_input] always binds ['full'] to the text as typed
    and ['city'] to the text before the first comma, stripped; it binds no
    key twice, and only keys among city, state, zip, country and full. *)
Theorem parsed_location_keeps_text_and_city :
  forall input : string,
    let d := parse_location_input input in
    Dict.get d "full" = Some input /\
    Dict.get d "city"
      = Some (Str.strip (hd EmptyString (Str.split "," input))) /\
    NoDup (Dict.keys d) /\
    incl (Dict.keys d) ["city"; "state"; "zip"; "country"; "full"].
Proof.
  intros input d. split; [apply full_of_parsed_input|].
  subst d. unfold parse_location_input, part.
  pose proof (split_not_empty "," input) as Hne.
  destruct (Str.split "," input) as [|p0 ps]; [congruence|]. clear Hne.
  cbn [map hd nth_error].
  destruct ps as [|p1 [|p2 [|p3 rest]]]; cbn [map nth_error];
    try destruct (Str.isdigit (Str.strip p2)
                  || (5 <=? String.length (Str.strip p2))%nat
                     && Str.isdigit (Str.prefix 5 (Str.strip p2)));
    cbn; (split; [reflexivity|]);
    (split; [repeat constructor; cbn; intuition discriminate|]);
    intros k Hk; cbn in Hk |- *; intuition.
Qed.

End GeocodingFacts.

(** ** Time zones and dates *)

Module TimezoneFacts.
Import Timezones.

Lemma get_in_values {V : Type} (d : Dict.t V) (k : string) (v : V) :
  Dict.get d k = Some v -> In v (Dict.values d).
Proof.
  induction d as [|[k' v'] d IH]; cbn; [discriminate|].
  destruct (String.eqb k k'); [intros [= ->]; left; reflexivity|].
  intro H. right. apply IH, H.
Qed.

Lemma zones_are_fixed_points :
  Forall (fun zone => normalize_timezone zone = zone)
         (Dict.values tz_mappings).
Proof. repeat constructor. Qed.

Lemma normalize_twice (tz_string : string) :
  normalize_timezone (normalize_timezone tz_string)
  = normalize_timezone tz_string.
Proof.
  unfold normalize_timezone at 2 3.
  destruct (Dict.get tz_mappings (Str.strip (Str.lower tz_string)))
    as [zone|] eqn:E.
  - apply get_in_values in E.
    pose proof zones_are_fixed_points as H.
    rewrite Forall_forall in H. apply H, E.
  - unfold normalize_timezone. rewrite E. reflexivity.
Qed.

(** X16. [normalize_timezone] is idempotent: what it returns, it returns
    unchanged when asked again.  No zone name of its table is itself read
    as an abbreviation of another zone. *)
Theorem normalize_timezone_idempotent :
  forall tz_string : string,
    normalize_timezone (normalize_timezone tz_string)
    = normalize_timezone tz_string.
Proof.
  intro tz_string. unfold normalize_timezone at 2 3.
  destruct (Dict.get tz_mappings (Str.strip (Str.lower tz_string)))
    as [zone|] eqn:E.
  - apply get_in_values in E.
    pose proof zones_are_fixed_points as H.
    rewrite Forall_forall in H. apply H, E.
  - unfold normalize_timezone. rewrite E. reflexivity.
Qed.

Lemma split_free_of (c : ascii) (s : string) :
  free_of c s = true -> Str.split c s = [s].
Proof.
  induction s as [|c' s IH]; cbn; [reflexivity|].
  destruct (Ascii.eqb c' c); cbn; [discriminate|].
  intro H. rewrite (IH H). reflexivity.
Qed.

Lemma split_not_nil (c : ascii) (s : string) : Str.split c s <> [].
Proof.
  destruct s as [|c' s]; cbn; [discriminate|].
  destruct (Ascii.eqb c' c); [discriminate|].
  destruct (Str.split c s); discriminate.
Qed.

(** Splitting a text that has the separator in the middle. *)
Lemma split_append (c : ascii) (a b : string) :
  Str.split c (a ++ String c b) = (Str.split c a ++ Str.split c b)%list.
Proof.
  induction a as [|c' a IH]; cbn.
  - rewrite Ascii.eqb_refl. reflexivity.
  - destruct (Ascii.eqb c' c); [rewrite IH; reflexivity|].
    rewrite IH.
    pose proof (split_not_nil c a) as Hne.
    destruct (Str.split c a) as [|p ps]; [congruence|]. reflexivity.
Qed.

Section Calendar.
Variable int : string -> option Z.
Variable zone naive : Type.
Variable pytz_timezone : string -> option zone.
Variable naive_datetime : Z -> Z -> Z -> Z -> Z -> Z -> option naive.
Variable localize : zone -> naive -> option datetime.

Let parse :=
  parse_datetime_input int zone naive pytz_timezone naive_datetime localize.

Lemma int_at_append (l l' : list string) (i : nat) :
  (i < List.length l)%nat -> int_at int (l ++ l') i = int_at int l i.
Proof.
  intro H. unfold int_at. rewrite nth_error_app1 by exact H. reflexivity.
Qed.

Lemma int_at_short (l : list string) (i : nat) :
  (List.length l <= i)%nat -> int_at int l i = None.
Proof.
  intro H. unfold int_at.
  destruct (nth_error l i) eqn:E; [|reflexivity].
  apply nth_error_None in H. congruence.
Qed.

(** X17. A time that is missing or empty is read as noon: the result is
    the one for ["12:00:00"] (given that [int] reads "12" as 12 and "00"
    as 0). *)
Theorem missing_time_is_noon :
  forall (date_str timezone_str : string),
    parse date_str (Some EmptyString) timezone_str
      = parse date_str None timezone_str /\
    (int "12" = Some 12%Z -> int "00" = Some 0%Z ->
     parse date_str None timezone_str
       = parse date_str (Some "12:00:00") timezone_str).
Proof.
  intros date_str timezone_str. split; [reflexivity|].
  intros H12 H00. unfold parse, parse_datetime_input.
  assert (Ht : parse_time int (Some "12:00:00") = parse_time int None).
  { cbn. unfold int_at_or_zero, int_at. cbn. rewrite H12, H00. reflexivity. }
  rewrite Ht. reflexivity.
Qed.

(** X18. Only the first three fields of the date count: with fewer than
    three fields between dashes the answer is [None], and whatever follows
    a further dash after three fields or more is ignored. *)
Theorem date_has_three_fields :
  forall (date_str extra : string) (time_str : option string)
         (timezone_str : string),
    ((List.length (Str.split "-" date_str) < 3)%nat ->
     parse date_str time_str timezone_str = None) /\
    ((3 <= List.length (Str.split "-" date_str))%nat ->
     parse (date_str ++ String "-" extra) time_str timezone_str
       = parse date_str time_str timezone_str).
Proof.
  intros date_str extra time_str timezone_str. split.
  - intro H. unfold parse, parse_datetime_input.
    rewrite (int_at_short _ 2) by lia.
    destruct (int_at int (Str.split "-" date_str) 0); [|reflexivity].
    destruct (int_at int (Str.split "-" date_str) 1); reflexivity.
  - intro H. unfold parse, parse_datetime_input.
    rewrite split_append, !int_at_append by lia. reflexivity.
Qed.

(** X19. A time of one field is an hour on the dot: the minutes and the
    seconds are 0 (given that [int] reads "0" as 0). *)
Theorem hour_alone_is_on_the_dot :
  forall (date_str hour timezone_str : string),
    hour <> EmptyString -> free_of ":" hour = true ->
    int "0" = Some 0%Z ->
    parse date_str (Some hour) timezone_str
      = parse date_str (Some (hour ++ ":0:0")) timezone_str.
Proof.
  intros date_str hour timezone_str Hne Hfree H0.
  unfold parse, parse_datetime_input.
  assert (Ht : parse_time int (Some hour)
               = parse_time int (Some (hour ++ ":0:0"))).
  { unfold parse_time.
    assert (T1 : Str.truthy hour = true)
      by (destruct hour; [congruence | reflexivity]).
    assert (T2 : Str.truthy (hour ++ ":0:0") = true)
      by (destruct hour; reflexivity).
    rewrite T1, T2.
    change (hour ++ ":0:0") with (hour ++ String ":" "0:0").
    rewrite split_append, (split_free_of ":" hour Hfree).
    cbn. unfold int_at_or_zero, int_at. cbn. rewrite H0.
    destruct (int hour); reflexivity. }
  rewrite Ht. reflexivity.
Qed.

(** X20. Time zones are read through [normalize_timezone]: an
    abbreviation and the zone name it stands for give the same result. *)
Theorem zone_abbreviations_are_equivalent :
  forall (date_str : string) (time_str : option string)
         (timezone_str : string),
    parse date_str time_str timezone_str
    = parse date_str time_str (normalize_timezone timezone_str).
Proof.
  intros. unfold parse, parse_datetime_input.
  rewrite normalize_twice. reflexivity.
Qed.

End Calendar.

Lemma missing_time_is_noon_witness :
  parse_datetime_input sample_int tzinfo Z sample_timezone sample_naive
    sample_localize "1971-11-17" None "utc"
  = parse_datetime_input sample_int tzinfo Z sample_timezone sample_naive
      sample_localize "1971-11-17" (Some "12:00:00") "utc".
Proof.
  apply (proj2 (missing_time_is_noon sample_int tzinfo Z sample_timezone
                  sample_naive sample_localize "1971-11-17" "utc"));
    reflexivity.
Defined.

Lemma date_has_three_fields_witness :
  parse_datetime_input sample_int tzinfo Z sample_timezone sample_naive
    sample_localize "1971/11/17" (Some "06:00:00") "utc" = None /\
  parse_datetime_input sample_int tzinfo Z sample_timezone sample_naive
    sample_localize ("1971-11-17" ++ String "-" "morning")
    (Some "06:00:00") "utc"
  = parse_datetime_input sample_int tzinfo Z sample_timezone sample_naive
      sample_localize "1971-11-17" (Some "06:00:00") "utc".
Proof.
  split.
  - apply (proj1 (date_has_three_fields sample_int tzinfo Z sample_timezone
                    sample_naive sample_localize "1971/11/17" ""
                    (Some "06:00:00") "utc")).
    cbn. lia.
  - apply (proj2 (date_has_three_fields sample_int tzinfo Z sample_timezone
                    sample_naive sample_localize "1971-11-17" "morning"
                    (Some "06:00:00") "utc")).
    cbn. lia.
Defined.

Lemma hour_alone_is_on_the_dot_witness :
  parse_datetime_input sample_int tzinfo Z sample_timezone sample_naive
    sample_localize "1971-11-17" (Some "06") "utc"
  = parse_datetime_input sample_int tzinfo Z sample_timezone sample_naive
      sample_localize "1971-11-17" (Some ("06" ++ ":0:0")) "utc".
Proof.
  apply (hour_alone_is_on_the_dot sample_int tzinfo Z sample_timezone
           sample_naive sample_localize "1971-11-17" "06" "utc").
  - discriminate.
  - reflexivity.
  - reflexivity.
Defined.

End TimezoneFacts.

(** ** The answer of [/api/calculate] *)

Module ApiFacts.
Import Np CosmicMotionCalculator SpaceTimePosition Vocabulary Api.

Section Formatting.
Variable isoformat : datetime -> string.

(** Every entry of the velocities but ['total_magnitude'] is a vector, so
    the comprehension raises nothing. *)
Lemma velocity_entries_built (lat lon : R) (t : Time) :
  exists vs,
    velocity_entries (calculate_total_velocity lat lon t) [] = Built vs /\
    Dict.keys vs = (component_names ++ ["total"])%list.
Proof. eexists. split; reflexivity. Qed.

Lemma event_entry_built (p : position_data) (lat lon : R) (t : Time) :
  velocities p = calculate_total_velocity lat lon t ->
  exists e, event_entry isoformat p = Built e.
Proof.
  intro H. unfold event_entry. rewrite H.
  destruct (velocity_entries_built lat lon t) as (vs & -> & _).
  eexists. reflexivity.
Qed.

(** X21. Building the response of [/api/calculate] never succeeds:
    whatever the two events are, the displacement is computed, the entries
    for the birth event, the current event and the displacement are built,
    and then reading ['cosmic_separation'], a key [calculate_displacement]
    does not bind, raises [KeyError]; the handler answers with status 500
    and never with a result. *)
Theorem calculate_answers_500 :
  forall (clock : Z) (bdt : datetime) (blat blon : R) (baddr : string)
         (cdt : option datetime) (cloc : option location),
    respond isoformat clock bdt (blat, blon, baddr) cdt cloc
    = Error500 (Uncaught (KeyError "cosmic_separation")).
Proof.
  intros. unfold respond.
  destruct (DisplacementFacts.compute_displacement_returns
              clock bdt blat blon baddr cdt cloc)
    as (r & Hr & Hv & _ & Hb & Hc).
  rewrite Hr. unfold build_response.
  destruct (event_entry_built (birth_data r) blat blon (mk_Time bdt))
    as (b & ->); [rewrite Hb; reflexivity|].
  destruct (event_entry_built (current_data r)
              (lat_of (whereabouts (blat, blon, baddr) cloc))
              (lon_of (whereabouts (blat, blon, baddr) cloc))
              (mk_Time (present clock cdt)))
    as (c & ->); [rewrite Hc; reflexivity|].
  unfold displacement_entry. rewrite Hv. reflexivity.
Qed.

End Formatting.

End ApiFacts.

(** ** Spacecraft travel times *)

Module TravelFacts.

Lemma slower_takes_longer (D fast slow : R) :
  0 <= D -> 0 < slow -> slow <= fast -> D / fast <= D / slow.
Proof.
  intros HD Hs Hle. unfold Rdiv.
  apply Rmult_le_compat_l; [exact HD|].
  apply Rinv_le_contravar; assumption.
Qed.

Lemma app_travel_seconds (D : R) :
  map App.travel_time_seconds (App.generate_spacecraft_comparisons D)
  = [D / 163.0; D / 73.61; D / 70.22; D / 68.75; D / 58.54].
Proof. reflexivity. Qed.

Lemma report_travel_seconds (D : R) :
  map Report.travel_time_seconds (Report.travel_times D)
  = [D / 163.0; D / 73.61; D / 70.22; D / 68.75; D / 58.54].
Proof.
  unfold Report.travel_times.
  rewrite SpacecraftFacts.report_catalog_is_app_catalog. reflexivity.
Qed.

Lemma travel_seconds_ascending (D : R) :
  0 <= D ->
  StronglySorted Rle [D / 163.0; D / 73.61; D / 70.22; D / 68.75; D / 58.54].
Proof.
  intro HD.
  repeat apply SSorted_cons; try apply SSorted_nil;
    repeat apply Forall_cons; try apply Forall_nil;
    apply slower_takes_longer; first [exact HD | lra].
Qed.

(** X22. For a distance that is not negative, both listings of spacecraft
    go from the shortest travel time to the longest: the fastest craft,
    Parker Solar Probe, comes first and New Horizons last. *)
Theorem faster_craft_come_first :
  forall D : R,
    0 <= D ->
    StronglySorted Rle
      (map App.travel_time_seconds (App.generate_spacecraft_comparisons D)) /\
    StronglySorted Rle
      (map Report.travel_time_seconds (Report.travel_times D)) /\
    hd_error (map (fun c => name (App.craft c))
                (App.generate_spacecraft_comparisons D))
      = Some "Parker Solar Probe" /\
    hd_error (map (fun c => name (Report.craft c)) (Report.travel_times D))
      = Some "Parker Solar Probe".
Proof.
  intros D HD.
  rewrite app_travel_seconds, report_travel_seconds.
  split; [apply travel_seconds_ascending, HD|].
  split; [apply travel_seconds_ascending, HD|].
  split; [reflexivity|].
  unfold Report.travel_times.
  rewrite SpacecraftFacts.report_catalog_is_app_catalog. reflexivity.
Qed.

Lemma faster_craft_come_first_witness :
  StronglySorted Rle
    (map App.travel_time_seconds
       (App.generate_spacecraft_comparisons 149597870.7)).
Proof.
  apply (faster_craft_come_first 149597870.7). lra.
Defined.

End TravelFacts.
